(** * idaes-ui flowsheet visualizer: the model server and its save-path logic

    A shallow embedding of [idaes_ui/fv/model_server.py] and
    [idaes_ui/fv/fsvis.py].  Python dictionaries are finite maps ([gmap]),
    Python integers are [Z], strings are [string], exceptions are values of
    the type [exn], and code that reads or writes the server object and the
    file system is a function from a [world] to a result and a new [world].

    The first part of the file holds the definitions, one module per Python
    module; the second part holds the theorems. *)

From Stdlib Require Import Ascii.
From stdpp Require Import gmap strings list fin_maps pretty.
From Equations Require Import Equations.
From Equations.Prop Require Import Logic.

Set Warnings "-register-all".

(** ** Python values *)

(** The JSON value model: scalars, sequences and mappings.  Equality of two
    values is deep structural equality, as Python's [==] on the result of
    [json.load]; for mappings it does not depend on the order of the keys,
    which [gmap] gives by extensionality. *)
Inductive json : Type :=
  | JNull
  | JBool (b : bool)
  | JNum (n : Z)
  | JStr (s : string)
  | JArr (l : list json)
  | JObj (m : gmap string json).

Global Instance json_eq_dec : EqDecision json.
Proof.
  refine (fix go (x y : json) : Decision (x = y) :=
    let _ : EqDecision json := go in
    match x, y with
    | JNull, JNull => left _
    | JBool a, JBool b => cast_if (decide (a = b))
    | JNum a, JNum b => cast_if (decide (a = b))
    | JStr a, JStr b => cast_if (decide (a = b))
    | JArr a, JArr b => cast_if (decide (a = b))
    | JObj a, JObj b => cast_if (decide (a = b))
    | _, _ => right _
    end); abstract congruence.
Defined.

(** A flowsheet document is a JSON object: a [Dict] with string keys. *)
Abbreviation document := (gmap string json).

(** [pathlib.Path] (the POSIX flavour) as the tuple of its parts; an
    absolute path starts with the root, which is the part ["/"] or, for
    exactly two leading slashes, the part ["//"]; [Path(".")] has no parts.
    A path names a file by its parts as they are written: two ways of
    writing the same file, as with [".."], are two paths. *)
Abbreviation Path := (list string).

Definition is_root (part : string) : bool :=
  bool_decide (part = "/") || bool_decide (part = "//").

Definition path_parent (p : Path) : Path :=
  match p with
  | [part] => if is_root part then p else []
  | _ => removelast p
  end.

Definition path_is_absolute (p : Path) : bool :=
  match p with
  | part :: _ => is_root part
  | [] => false
  end.

(** [p / q]: an absolute right operand replaces the left one. *)
Definition path_join (p q : Path) : Path :=
  if path_is_absolute q then q else p ++ q.

(** [s.split("/")]. *)
Fixpoint slash_pieces (s : string) : list string :=
  match s with
  | EmptyString => [EmptyString]
  | String c rest =>
      if Ascii.eqb c "/" then EmptyString :: slash_pieces rest
      else match slash_pieces rest with
           | piece :: pieces => String c piece :: pieces
           | [] => [String c EmptyString]
           end
  end.

(** The root that a string starts with: one slash, or three and more, give
    ["/"]; exactly two give ["//"]. *)
Definition path_root (s : string) : Path :=
  match s with
  | String c1 rest1 =>
      if Ascii.eqb c1 "/" then
        match rest1 with
        | String c2 rest2 =>
            if Ascii.eqb c2 "/" then
              match rest2 with
              | String c3 _ => if Ascii.eqb c3 "/" then ["/"] else ["//"]
              | EmptyString => ["//"]
              end
            else ["/"]
        | EmptyString => ["/"]
        end
      else []
  | EmptyString => []
  end.

(** [Path(s)] for a string: the root, then the pieces between the slashes
    without the empty ones and the single dots. *)
Definition path_of_string (s : string) : Path :=
  path_root s
  ++ filter (λ piece, piece ≠ EmptyString ∧ piece ≠ ".") (slash_pieces s).

(** [d / file] for a string [file]: the string is read as a path, so a
    slash in it makes several parts, and a leading slash makes the result
    the path of [file] alone. *)
Definition path_child (d : Path) (file : string) : Path :=
  path_join d (path_of_string file).

(** ** Exceptions *)

(** The exception classes the two modules raise, catch or can meet.
    [FlowsheetNotFoundInDatastore] and [FlowsheetNotFoundInMemory] are the
    subclasses of [errors.FlowsheetNotFound]. *)
Inductive exn : Type :=
  | KeyError (key : string)
  | ValueError (msg : string)
  | AttributeError (msg : string)
  | TypeError (msg : string)
  | UnboundLocalError (var : string)
  | OSError (msg : string)
  | RuntimeError (msg : string)
  | DatastoreError (msg : string)
  | ProcessingError (msg : string)
  | FlowsheetUnknown (id_ : string)
  | FlowsheetNotFoundInDatastore (id_ : string)
  | FlowsheetNotFoundInMemory (id_ : string)
  | TooManySavedVersions (why : string)
  | VisualizerSaveError (msg : string)
  | VisualizerError (msg : string).

Global Instance exn_eq_dec : EqDecision exn.
Proof. solve_decision. Defined.

(** [str(err)], as the f-strings of the two modules use it. *)
Definition exn_str (e : exn) : string :=
  match e with
  | KeyError k => "'" +:+ k +:+ "'"
  | ValueError m | AttributeError m | TypeError m | OSError m
  | RuntimeError m | DatastoreError m | ProcessingError m
  | TooManySavedVersions m | VisualizerSaveError m | VisualizerError m => m
  | UnboundLocalError v =>
      "local variable '" +:+ v +:+ "' referenced before assignment"
  | FlowsheetUnknown i => "Unknown flowsheet '" +:+ i +:+ "'"
  | FlowsheetNotFoundInDatastore i =>
      "Flowsheet '" +:+ i +:+ "' not found in datastore"
  | FlowsheetNotFoundInMemory i =>
      "Flowsheet '" +:+ i +:+ "' not found in memory"
  end.

(** The outcome of a Python call: a value, or a raised exception. *)
Inductive pyresult (A : Type) : Type :=
  | Ok (a : A)
  | Raise (e : exn).
Arguments Ok {A} a.
Arguments Raise {A} e.

Definition is_Ok {A} (r : pyresult A) : bool :=
  match r with Ok _ => true | Raise _ => false end.

(** ** Collaborators outside the two modules *)

(** An attribute of a [DiagnosticsToolbox] instance: a method, given by
    what a call with [stream=output_stream] writes to the stream or raises,
    or a value that is not callable. *)
Inductive attribute : Type :=
  | Method (run : pyresult string)
  | Data (v : json).

(** A flowsheet object is opaque to the server, which only hands it to
    [FlowsheetSerializer(flowsheet, id_).as_dict()] and to
    [DiagnosticsToolbox(flowsheet)].  It is modelled by the outcome of these
    two calls; a toolbox instance is the dictionary of its attributes. *)
Record Flowsheet : Type := {
  as_dict : string → pyresult document;
  diagnostics_toolbox : pyresult (gmap string attribute);
}.

(** ** The world a call runs in *)

(** What a file holds: nothing yet (a blank file, as [open("w")] leaves
    it), one saved document, or text that does not parse. *)
Inductive file_content : Type :=
  | Blank
  | Saved (d : document)
  | Corrupt (text : string).

(** The files that exist, with their content, and the paths at which
    creating or writing a file fails. *)
Record filesystem : Type := {
  files : gmap Path file_content;
  unwritable : gset Path;
}.

Definition path_exists (p : Path) (fs : filesystem) : bool :=
  bool_decide (is_Some (files fs !! p)).

Definition write_file (p : Path) (c : file_content) (fs : filesystem)
  : filesystem :=
  {| files := <[p := c]> (files fs); unwritable := unwritable fs |}.

(** A log of the writes to stores and files, in the order they happen. *)
Inductive io_event : Type :=
  | Truncated (p : Path)
  | StoreSaved (d : document).

Module persist.

(** Modelled from the spec: the module [persist] ([DataStore],
    [MemoryDataStore], [DataStoreManager]) is not part of the sources.
    A store is bound to one file path, or is memory-only and holds its
    document itself. *)
Inductive DataStore : Type :=
  | FileDataStore (p : Path)
  | MemoryDataStore (data : option document).

(** Modelled from the spec: [DataStore.create(path)] binds a store to a
    path and fails with [DatastoreError] if the parent of the path is not
    writable. *)
Definition create (p : Path) (fs : filesystem) : pyresult DataStore :=
  if decide (path_parent p ∈ unwritable fs)
  then Raise (DatastoreError "cannot write to the directory of the file")
  else Ok (FileDataStore p).

(** Modelled from the spec: [store.load()] reads and parses the bound
    file; content that is not valid structured data is a
    [ProcessingError]; a store that was never written reports "not found",
    which the server receives as a [ValueError]. *)
Definition load (s : DataStore) (fs : filesystem) : pyresult document :=
  match s with
  | MemoryDataStore (Some d) => Ok d
  | MemoryDataStore None => Raise (ValueError "no data in the store")
  | FileDataStore p =>
      match files fs !! p with
      | Some (Saved d) => Ok d
      | Some Blank | None => Raise (ValueError "no data in the store")
      | Some (Corrupt _) => Raise (ProcessingError "cannot parse the file")
      end
  end.

(** A store with no persisted document: a memory-only store that holds
    none, or a file store whose file does not exist or is blank. *)
Definition never_written (s : DataStore) (fs : filesystem) : bool :=
  match s with
  | MemoryDataStore None => true
  | MemoryDataStore (Some _) => false
  | FileDataStore p =>
      match files fs !! p with
      | None | Some Blank => true
      | Some _ => false
      end
  end.

(** Modelled from the spec: [store.save(doc)] overwrites the bound file,
    or the buffer of a memory-only store, with the document, and fails
    with [DatastoreError] when the file cannot be written.  It returns the
    store and the file system after the call. *)
Definition save (s : DataStore) (d : document) (fs : filesystem)
  : pyresult (DataStore * filesystem) :=
  match s with
  | MemoryDataStore _ => Ok (MemoryDataStore (Some d), fs)
  | FileDataStore p =>
      if decide (p ∈ unwritable fs)
      then Raise (DatastoreError "cannot write the file")
      else Ok (s, write_file p (Saved d) fs)
  end.

(** Modelled from the spec: the [DataStoreManager] maps a flowsheet
    identifier to its store (the dictionary entry holds the store
    object). *)
Abbreviation DataStoreManager := (gmap string DataStore).

Definition add (id_ : string) (store : DataStore) (dsm : DataStoreManager)
  : DataStoreManager := <[id_ := store]> dsm.

(** Modelled from the spec: [DataStoreManager.load(id)] delegates to the
    bound store; an unknown identifier is a [KeyError]. *)
Definition dsm_load (id_ : string) (dsm : DataStoreManager)
    (fs : filesystem) : pyresult document :=
  match dsm !! id_ with
  | None => Raise (KeyError id_)
  | Some store => load store fs
  end.

(** Modelled from the spec: [DataStoreManager.save(id, doc)] delegates to
    the bound store; an unknown identifier is a [KeyError]. *)
Definition dsm_save (id_ : string) (d : document) (dsm : DataStoreManager)
    (fs : filesystem) : pyresult (DataStoreManager * filesystem) :=
  match dsm !! id_ with
  | None => Raise (KeyError id_)
  | Some store =>
      match save store d fs with
      | Ok (store', fs') => Ok (<[id_ := store']> dsm, fs')
      | Raise e => Raise e
      end
  end.

End persist.

Module flowsheet.

(** Modelled from the spec: the class [FlowsheetDiff] of the module
    [flowsheet] is not part of the sources.  A diff is built from the
    stored and the live document. *)
Record FlowsheetDiff : Type := {
  diff_old : document;
  diff_new : document;
}.

(** Modelled from the spec: the diff is the set of top-level keys present
    in either document with unequal values. *)
Definition diff_keys (d : FlowsheetDiff) : gset string :=
  filter (λ k, diff_old d !! k ≠ diff_new d !! k)
         (dom (diff_old d) ∪ dom (diff_new d)).

(** [len(diff)] and the truth value of [diff]. *)
Definition diff_len (d : FlowsheetDiff) : nat := size (diff_keys d).

Definition diff_bool (d : FlowsheetDiff) : bool :=
  negb (Nat.eqb (diff_len d) 0).

(** Modelled from the spec: the merge is a key-level override; for each
    top-level key of the live document the live value wins, and a key
    present only in the stored document keeps the stored value (the union
    of finite maps prefers its left operand).  A copy ([do_copy=True]) is
    the same value. *)
Definition merged (d : FlowsheetDiff) : document :=
  diff_new d ∪ diff_old d.

End flowsheet.

Module model_server.
Import persist flowsheet.

(** The instance attributes of [FlowsheetServer] that the methods below
    read and write. *)
Record FlowsheetServer : Type := {
  _port : Z;
  _dsm : DataStoreManager;
  _flowsheets : gmap string Flowsheet;
  _settings_block : gmap string json;
}.

(** The state a method call can read and change: the server object
    [self], the file system and the log of writes. *)
Record world : Type := {
  self : FlowsheetServer;
  disk : filesystem;
  io_log : list io_event;
}.

(** A method call: from a world to its outcome and the world it leaves.
    What a call changed before it raised stays changed. *)
Definition M (A : Type) : Type := world → pyresult A * world.

Definition ret {A} (a : A) : M A := λ w, (Ok a, w).
Definition raise {A} (e : exn) : M A := λ w, (Raise e, w).
Definition lift {A} (r : pyresult A) : M A := λ w, (r, w).

Definition bind {A B} (m : M A) (k : A → M B) : M B :=
  λ w, match m w with
       | (Ok a, w') => k a w'
       | (Raise e, w') => (Raise e, w')
       end.

(** [try: m  except ...: h e]; the handler re-raises what its [except]
    clauses do not name. *)
Definition try_except {A} (m : M A) (h : exn → M A) : M A :=
  λ w, match m w with
       | (Ok a, w') => (Ok a, w')
       | (Raise e, w') => h e w'
       end.

Notation "'let*' x ':=' m 'in' k" := (bind m (λ x, k))
  (at level 10, x pattern, m at level 100, k at level 200, only parsing).

(** [d[key]] on a dictionary. *)
Definition dict_getitem {V} (d : gmap string V) (key : string)
  : pyresult V :=
  match d !! key with
  | Some v => Ok v
  | None => Raise (KeyError key)
  end.

(** *** [FlowsheetServer] *)

Definition new_server (port : Z) : FlowsheetServer :=
  {| _port := port; _dsm := ∅; _flowsheets := ∅; _settings_block := ∅ |}.

Definition add_setting (key : string) (value : json) : M unit :=
  λ w, (Ok tt,
        {| self := {| _port := _port (self w);
                      _dsm := _dsm (self w);
                      _flowsheets := _flowsheets (self w);
                      _settings_block :=
                        <[key := value]> (_settings_block (self w)) |};
           disk := disk w; io_log := io_log w |}).

(** [get_setting]: [None] is [JNull]. *)
Definition get_setting (key : string) : M json :=
  λ w, if bool_decide (key ∉ dom (_settings_block (self w)))
       then (Ok JNull, w)
       else (dict_getitem (_settings_block (self w)) key, w).

(** [re.sub(r"[^a-zA-Z0-9-._]", "-", name)]: inside the brackets the
    ranges are [a-z], [A-Z] and [0-9], and the three characters after
    them, [-], [.] and [_], stand for themselves.  A character of a Python
    string outside ASCII is a run of bytes here, each above 127. *)
Definition in_range (lo hi c : ascii) : bool :=
  (N_of_ascii lo <=? N_of_ascii c)%N && (N_of_ascii c <=? N_of_ascii hi)%N.

Definition unreserved (c : ascii) : bool :=
  in_range "a" "z" c || in_range "A" "Z" c || in_range "0" "9" c
  || Ascii.eqb c "-" || Ascii.eqb c "." || Ascii.eqb c "_".

Fixpoint sub_reserved (name : string) : string :=
  match name with
  | EmptyString => EmptyString
  | String c rest =>
      String (if unreserved c then c else "-"%char) (sub_reserved rest)
  end.

(** [re.sub(r"-+", "-", s)]: every maximal run of dashes becomes one
    dash; [in_run] tells that the character before was a dash of the
    run being replaced. *)
Fixpoint sub_dashes (in_run : bool) (s : string) : string :=
  match s with
  | EmptyString => EmptyString
  | String c rest =>
      if Ascii.eqb c "-"
      then if in_run then sub_dashes true rest
           else String "-" (sub_dashes true rest)
      else String c (sub_dashes false rest)
  end.

Definition canonical_flowsheet_name (name : string) : string :=
  sub_dashes false (sub_reserved name).

(** [self._dsm.save(id_, flowsheet)] in the world; a save that succeeds
    is logged. *)
Definition _dsm_save (id_ : string) (d : document) : M unit :=
  λ w, match dsm_save id_ d (_dsm (self w)) (disk w) with
       | Ok (dsm', fs') =>
           (Ok tt,
            {| self := {| _port := _port (self w);
                          _dsm := dsm';
                          _flowsheets := _flowsheets (self w);
                          _settings_block := _settings_block (self w) |};
               disk := fs'; io_log := io_log w ++ [StoreSaved d] |})
       | Raise e => (Raise e, w)
       end.

(** [save_flowsheet] for a flowsheet given as a dictionary, which is how
    [update_flowsheet] calls it.  The text of a request body, the other
    form the argument can have, is parsed in the module [persist], which is
    not part of the sources, before it is saved. *)
Definition save_flowsheet (id_ : string) (flowsheet : document) : M unit :=
  try_except (_dsm_save id_ flowsheet)
    (λ err, match err with
            | DatastoreError _ | KeyError _ =>
                raise (ProcessingError
                         ("While saving flowsheet: " +:+ exn_str err))
            | _ => raise err
            end).

Definition _load_flowsheet (id_ : string) : M document :=
  λ w, (dsm_load id_ (_dsm (self w)) (disk w), w).

Definition _get_flowsheet_obj (id_ : string) : M Flowsheet :=
  λ w, (dict_getitem (_flowsheets (self w)) id_, w).

Definition _serialize_flowsheet (id_ : string) (flowsheet : Flowsheet)
  : M document :=
  try_except (lift (as_dict flowsheet id_))
    (λ err, match err with
            | AttributeError _ | KeyError _ =>
                raise (ValueError
                         ("Error serializing flowsheet: " +:+ exn_str err))
            | _ => raise err
            end).

Definition update_flowsheet (id_ : string) : M document :=
  let* saved :=
    try_except (_load_flowsheet id_)
      (λ err, match err with
              | KeyError _ => raise (FlowsheetUnknown id_)
              | ValueError _ => raise (FlowsheetNotFoundInDatastore id_)
              | _ => raise err
              end) in
  let* obj :=
    try_except (_get_flowsheet_obj id_)
      (λ err, match err with
              | KeyError _ => raise (FlowsheetNotFoundInMemory id_)
              | _ => raise err
              end) in
  let* obj_dict :=
    try_except (_serialize_flowsheet id_ obj)
      (λ err, match err with
              | ValueError _ =>
                  raise (ProcessingError
                           ("Cannot serialize flowsheet: " +:+ exn_str err))
              | _ => raise err
              end) in
  let diff := {| diff_old := saved; diff_new := obj_dict |} in
  let* _ :=
    if negb (diff_bool diff) then ret tt
    else save_flowsheet id_ (merged diff) in
  ret (merged diff).

(** [self._flowsheets[id_] = flowsheet] and [self._dsm.add(id_, store)]. *)
Definition _register (id_ : string) (flowsheet : Flowsheet)
    (store : DataStore) : M unit :=
  λ w, (Ok tt,
        {| self := {| _port := _port (self w);
                      _dsm := persist.add id_ store (_dsm (self w));
                      _flowsheets := <[id_ := flowsheet]>
                                       (_flowsheets (self w));
                      _settings_block := _settings_block (self w) |};
           disk := disk w; io_log := io_log w |}).

(** [store.save(fs_dict)] on the store object that [add_flowsheet] has
    just registered under [id_]: the manager's entry is that same object,
    so the entry sees the save. *)
Definition _store_save (id_ : string) (store : DataStore) (d : document)
  : M unit :=
  λ w, match persist.save store d (disk w) with
       | Ok (store', fs') =>
           (Ok tt,
            {| self := {| _port := _port (self w);
                          _dsm := <[id_ := store']> (_dsm (self w));
                          _flowsheets := _flowsheets (self w);
                          _settings_block := _settings_block (self w) |};
               disk := fs'; io_log := io_log w ++ [StoreSaved d] |})
       | Raise e => (Raise e, w)
       end.

Definition add_flowsheet (id_ : string) (flowsheet : Flowsheet)
    (store : DataStore) : M string :=
  let id_ := canonical_flowsheet_name id_ in
  let* _ := _register id_ flowsheet store in
  let* _ :=
    try_except (let* _ := update_flowsheet id_ in ret tt)
      (λ err, match err with
              | FlowsheetNotFoundInDatastore _ =>
                  let* fs_dict := lift (as_dict flowsheet id_) in
                  _store_save id_ store fs_dict
              | _ => raise err
              end) in
  ret id_.

(** *** [FlowsheetServerHandler] *)

(** What a request handler does that a client or the diagnostics object
    can observe: a response it writes, and a method of the diagnostics
    object it calls. *)
Inductive handler_event : Type :=
  | Response (code : Z) (body : json)
  | Invoked (attr : string).

(** A handler step: the events so far, and a value or an exception. *)
Definition H (A : Type) : Type := list handler_event * pyresult A.

Definition hret {A} (a : A) : H A := ([], Ok a).
Definition hlift {A} (r : pyresult A) : H A := ([], r).
Definition hbind {A B} (m : H A) (k : A → H B) : H B :=
  match m with
  | (evs, Ok a) => let '(evs', r) := k a in (evs ++ evs', r)
  | (evs, Raise e) => (evs, Raise e)
  end.

Notation "'do*' x ':=' m 'in' k" := (hbind m (λ x, k))
  (at level 10, x pattern, m at level 100, k at level 200, only parsing).

Definition _write_json (code : Z) (data : json) : H unit :=
  ([Response code data], Ok tt).

(** [_get_setting]: the events of the handler and the outcome of the
    call. *)
Definition _get_setting (setting_key_ : string) (w : world) : H unit :=
  do* value := hlift (fst (get_setting setting_key_ w)) in
  _write_json 200 (JObj {[ "setting_value" := value ]}).

(** [request_data.get(key, "")] on the value [json.loads] returned. *)
Definition json_get (data : json) (key : string) (dflt : json)
  : pyresult json :=
  match data with
  | JObj m => Ok (default dflt (m !! key))
  | _ => Raise (AttributeError "object has no attribute 'get'")
  end.

(** [self.server._get_flowsheet_obj(id_)] for the [id_] of the request
    body: a key that is no string is not in the dictionary, and lists and
    dictionaries cannot be keys. *)
Definition _flowsheet_of_json (id_ : json) (w : world)
  : pyresult Flowsheet :=
  match id_ with
  | JStr s => fst (_get_flowsheet_obj s w)
  | JArr _ | JObj _ => Raise (TypeError "unhashable type")
  | _ => Raise (KeyError "")
  end.

(** The [if hasattr ... else ...] of [_put_diagnostic]; the result tells
    the content of [output_stream], or that the variable was never
    assigned. *)
Definition _run_function (dt_instance : gmap string attribute)
    (function_name : json) : H (option string) :=
  match function_name with
  | JStr name =>
      match dt_instance !! name with
      | Some (Method run) =>
          hbind ([Invoked name], run) (λ out, hret (Some out))
      | Some (Data _) => hlift (Raise (TypeError "object is not callable"))
      | None =>
          do* _ := _write_json 500
                     (JObj {[ "error" :=
                                JStr ("Unknown function: " +:+ name) ]}) in
          hret None
      end
  | _ => hlift (Raise (TypeError "attribute name must be string"))
  end.

(** [_put_diagnostic], from the parsed request body on; [request_data] is
    the outcome of reading and parsing the body. *)
Definition _put_diagnostic (request_data : pyresult json) (w : world)
  : list handler_event :=
  let attempt : H unit :=
    do* request_data := hlift request_data in
    do* function_name :=
      hlift (json_get request_data "function_name" (JStr "")) in
    do* id_ := hlift (json_get request_data "id" (JStr "")) in
    do* fs := hlift (_flowsheet_of_json id_ w) in
    do* dt_instance := hlift (diagnostics_toolbox fs) in
    do* output_stream := _run_function dt_instance function_name in
    do* captured_output :=
      hlift (match output_stream with
             | Some text => Ok text
             | None => Raise (UnboundLocalError "output_stream")
             end) in
    _write_json 200
      (JObj {[ "diagnostics_runner_result" := JStr captured_output ]}) in
  match attempt with
  | (evs, Ok _) => evs
  | (evs, Raise e) =>
      evs ++ [Response 500
                (JObj {[ "error" :=
                   JStr ("Error running diagnostics: " +:+ exn_str e
                         +:+ ", please check your flowsheet!") ]})]
  end.

End model_server.

Module fsvis.
Import persist model_server.

(** Maximum number of saved versions of the same [save] file; zero
    allows any number.  A module global that the caller may set. *)
Definition MAX_SAVED_VERSIONS : Z := 100.

(** [sys.maxsize] of a 64-bit interpreter. *)
Definition sys_maxsize : Z := 2 ^ 63 - 1.

(** [f"{name}-{counter}.json"] in [save_dir]. *)
Definition versioned (save_dir : Path) (name : string) (counter : Z)
  : Path :=
  path_child save_dir (name +:+ "-" +:+ pretty counter +:+ ".json").

(** The [while] loop of [_handle_existing_save_path]: the state is
    [counter] and [save_path]; it stops within [max_versions - counter]
    rounds. *)
Equations? version_loop (fs : filesystem) (save_dir : Path) (name : string)
    (max_versions counter : Z) (save_path : Path) : Z * Path
    by wf (Z.to_nat (max_versions - counter)) lt :=
  version_loop fs save_dir name max_versions counter save_path
    with inspect (path_exists save_path fs && (counter <? max_versions)%Z) := {
    | exist _ true continue =>
        version_loop fs save_dir name max_versions (counter + 1)
          (versioned save_dir name (counter + 1))
    | exist _ false _ => (counter, save_path) }.
Proof.
  apply andb_prop in continue as [_ Hlt]. apply Z.ltb_lt in Hlt. lia.
Qed.

Definition _handle_existing_save_path (name : string) (save_path : Path)
    (max_versions : Z) (overwrite : bool) : M Path :=
  λ w,
  let save_dir := path_parent save_path in
  if overwrite then
    if path_exists save_path (disk w) then
      if decide (save_path ∈ unwritable (disk w))
      then (Raise (OSError "cannot open the file for writing"), w)
      else (Ok save_path,
            {| self := self w;
               disk := write_file save_path Blank (disk w);
               io_log := io_log w ++ [Truncated save_path] |})
    else (Ok save_path, w)
  else if negb (path_exists save_path (disk w)) then (Ok save_path, w)
  else
    let max_versions :=
      if (max_versions =? 0)%Z then sys_maxsize else max_versions in
    let '(counter, save_path) :=
      version_loop (disk w) save_dir name max_versions 0 save_path in
    if (counter =? max_versions)%Z then
      let why :=
        "Found " +:+ pretty max_versions +:+ " numbered files of form '"
        +:+ name +:+ "-<num>.json'. That's too many." in
      (Raise (TooManySavedVersions why), w)
    else (Ok save_path, w).

(** The [save] argument of [visualize]: [None], a boolean, a path or
    string, or a value that [Path(save)] rejects. *)
Inductive save_arg : Type :=
  | SaveNone
  | SaveBool (b : bool)
  | SavePath (p : Path)
  | SaveOther.

Definition _pick_default_save_location (name : string)
    (save_dir : option Path) : Path :=
  let save_dir := default [] save_dir in
  path_child save_dir (name +:+ ".json").

(** The fields of [VisualizeResult] that are data. *)
Record VisualizeResult : Type := {
  store : DataStore;
  port : Z;
}.

(** The block "Set up save location" of [visualize]: the path to save
    to, or [None] for a store in memory only. *)
Definition save_location (name : string) (save : save_arg)
    (save_dir : option Path) : pyresult (option Path) :=
  match save with
  | SaveNone | SaveBool true =>
      Ok (Some (_pick_default_save_location name save_dir))
  | SaveBool false => Ok None
  | SaveOther =>
      Raise (VisualizerSaveError
               "Cannot convert 'save' value to Path object")
  | SavePath save_path =>
      match save_dir with
      | Some d =>
          if negb (path_is_absolute save_path)
          then Ok (Some (path_join d save_path))
          else Ok (Some save_path)
      | None => Ok (Some save_path)
      end
  end.

(** [visualize], up to the registration of the flowsheet; the browser,
    the console messages and the screenshot helper are left out.
    [web_server] is the module global before the call, [free_port] is what
    [find_free_port()] would answer, and [max_saved_versions] is the value
    of the global [MAX_SAVED_VERSIONS] at the call. *)
Definition visualize (flowsheet : Flowsheet) (name : string)
    (save : save_arg) (load_from_saved : bool) (save_dir : option Path)
    (save_time_interval : json) (overwrite : bool) (port_arg : option Z)
    (max_saved_versions free_port : Z)
    (web_server : option FlowsheetServer) (fs : filesystem)
    (log : list io_event) : pyresult VisualizeResult * world :=
  (* Start the web server *)
  let w0 :=
    match web_server with
    | None =>
        snd (add_setting "save_time_interval" save_time_interval
               {| self := new_server (default free_port port_arg);
                  disk := fs; io_log := log |})
    | Some srv => {| self := srv; disk := fs; io_log := log |}
    end in
  (* Create datastore for save location *)
  let make_store (save_path : option Path) : M DataStore :=
    match save_path with
    | None => ret (MemoryDataStore None)
    | Some save_path =>
        λ w,
        if path_exists save_path (disk w) && load_from_saved then
          (let* datastore := lift (persist.create save_path (disk w)) in
           let* _ := lift (persist.load datastore (disk w)) in
           ret datastore) w
        else
          (let* save_path :=
             try_except
               (_handle_existing_save_path name save_path
                  max_saved_versions overwrite)
               (λ err, match err with
                       | TooManySavedVersions _ =>
                           raise (RuntimeError
                                    ("In visualize(): " +:+ exn_str err))
                       | _ => raise err
                       end) in
           λ w', lift (persist.create save_path (disk w')) w') w
    end in
  (let* save_path := lift (save_location name save save_dir) in
   let* datastore := make_store save_path in
   (* Add our flowsheet to it *)
   let* new_name :=
     try_except (add_flowsheet name flowsheet datastore)
       (λ err, match err with
               | ProcessingError _ | DatastoreError _ =>
                   raise (VisualizerError
                            ("Cannot add flowsheet: " +:+ exn_str err))
               | _ => raise err
               end) in
   λ w, (Ok {| store := default datastore (_dsm (self w) !! new_name);
               port := _port (self w) |}, w)) w0.

End fsvis.

(** ** The rules of the specification, in its own words *)

Module spec.
Import model_server.

(** The characters the specification keeps: [A-Za-z0-9._~]. *)
Definition kept (c : ascii) : bool :=
  in_range "A" "Z" c || in_range "a" "z" c || in_range "0" "9" c
  || Ascii.eqb c "." || Ascii.eqb c "_" || Ascii.eqb c "~".

(** Replace every character outside [keep] with a dash. *)
Fixpoint replace_outside (keep : ascii → bool) (s : string) : string :=
  match s with
  | EmptyString => EmptyString
  | String c rest =>
      String (if keep c then c else "-"%char) (replace_outside keep rest)
  end.

(** Collapse every run of consecutive dashes into a single dash: a dash
    that another dash follows is dropped. *)
Fixpoint collapse (s : string) : string :=
  match s with
  | EmptyString => EmptyString
  | String c rest =>
      match rest with
      | String c' _ =>
          if Ascii.eqb c "-" && Ascii.eqb c' "-" then collapse rest
          else String c (collapse rest)
      | EmptyString => String c EmptyString
      end
  end.

Definition canonicalize_over (keep : ascii → bool) (s : string) : string :=
  collapse (replace_outside keep s).

Definition canonicalize : string → string := canonicalize_over kept.

(** The set [A-Za-z0-9._]: the one above without the tilde. *)
Definition kept_no_tilde (c : ascii) : bool :=
  kept c && negb (Ascii.eqb c "~").

Fixpoint all_chars (P : ascii → bool) (s : string) : bool :=
  match s with
  | EmptyString => true
  | String c rest => P c && all_chars P rest
  end.


(** The exceptions of the serializer that [update_flowsheet] turns into a
    [ProcessingError]: the two that [_serialize_flowsheet] catches, and
    the [ValueError] it raises for them. *)
Definition caught_serializer_error (e : exn) : bool :=
  match e with
  | AttributeError _ | KeyError _ | ValueError _ => true
  | _ => false
  end.

(** The ceiling in effect for a value of [MAX_SAVED_VERSIONS]: zero
    stands for [sys.maxsize]. *)
Definition effective_ceiling (max_versions : Z) : Z :=
  if (max_versions =? 0)%Z then fsvis.sys_maxsize else max_versions.

(** "With [overwrite=True] and a save path that exists, [visualize]
    truncates the file", whatever [load_from_saved] is: the first write of
    the call is the truncation of the save path. *)
Definition overwrite_always_truncates : Prop :=
  ∀ (flowsheet : Flowsheet) (name : string) (save : fsvis.save_arg)
    (load_from_saved : bool) (save_dir : option Path)
    (save_time_interval : json) (port_arg : option Z)
    (max_saved_versions free_port : Z)
    (web_server : option FlowsheetServer) (fs : filesystem)
    (log : list io_event) (p : Path),
    fsvis.save_location name save save_dir = Ok (Some p) →
    path_exists p fs = true →
    p ∉ unwritable fs →
    ∃ rest,
      io_log (snd (fsvis.visualize flowsheet name save load_from_saved
                     save_dir save_time_interval true port_arg
                     max_saved_versions free_port web_server fs log))
      = log ++ Truncated p :: rest.

(** An explicit allow-list for the diagnostics operations: one fixed list
    of names such that no request, whatever the server holds, makes the
    handler call a method outside the list. *)
Definition dispatch_by_allow_list : Prop :=
  ∃ allowed : list string,
    ∀ (request_data : pyresult json) (w : world) (name : string),
      Invoked name ∈ _put_diagnostic request_data w → name ∈ allowed.

End spec.

(** ** Concrete inputs *)

Module examples.
Import persist model_server.

(** The stored document [{"a": 1, "layout": {"x": 5}}] and the live
    document [{"a": 2}]. *)
Definition doc_stored : document :=
  {[ "a" := JNum 1; "layout" := JObj {[ "x" := JNum 5 ]} ]}.
Definition doc_live : document := {[ "a" := JNum 2 ]}.
Definition doc_merged : document :=
  {[ "a" := JNum 2; "layout" := JObj {[ "x" := JNum 5 ]} ]}.

(** A flowsheet that serializes to a given document, and one whose
    serializer raises a given exception; the toolbox of both has one
    method and one attribute that is not a method. *)
Definition toolbox : gmap string attribute :=
  {[ "report_structural_issues" := Method (Ok "No issues found");
     "config" := Data JNull ]}.

Definition flowsheet_of (d : document) : Flowsheet :=
  {| as_dict := λ _, Ok d; diagnostics_toolbox := Ok toolbox |}.

Definition flowsheet_raising (e : exn) : Flowsheet :=
  {| as_dict := λ _, Raise e; diagnostics_toolbox := Ok toolbox |}.

Definition no_files : filesystem := {| files := ∅; unwritable := ∅ |}.

(** A server that holds the flowsheet [obj] under the name ["fs"], bound
    to a store in memory. *)
Definition server_with (obj : Flowsheet) (data : option document)
  : FlowsheetServer :=
  {| _port := 8000;
     _dsm := {[ "fs" := MemoryDataStore data ]};
     _flowsheets := {[ "fs" := obj ]};
     _settings_block := {[ "save_time_interval" := JNum 5000 ]} |}.

Definition world_with (obj : Flowsheet) (data : option document) : world :=
  {| self := server_with obj data; disk := no_files; io_log := [] |}.

(** The same, but the live object is lost. *)
Definition world_without_object (data : option document) : world :=
  {| self := {| _port := 8000;
                _dsm := {[ "fs" := MemoryDataStore data ]};
                _flowsheets := ∅;
                _settings_block := ∅ |};
     disk := no_files; io_log := [] |}.

(** The body of a diagnostics request for the flowsheet ["fs"]. *)
Definition request (function_name : string) : json :=
  JObj {[ "function_name" := JStr function_name; "id" := JStr "fs" ]}.

(** A world whose flowsheet ["fs"] has a toolbox with the single method
    [name]. *)
Definition world_with_method (name : string) : world :=
  world_with {| as_dict := λ _, Ok doc_live;
                diagnostics_toolbox := Ok {[ name := Method (Ok "") ]} |}
             None.

(** A directory that holds the given files, all blank. *)
Definition directory (names : list string) : filesystem :=
  {| files := list_to_map ((λ n, ([n], Blank)) <$> names);
     unwritable := ∅ |}.

(** A directory with the file [x.json], which holds [doc_stored]. *)
Definition saved_x : filesystem :=
  {| files := {[ ["x.json"] := Saved doc_stored ]}; unwritable := ∅ |}.

Definition world_on (fs : filesystem) : world :=
  {| self := new_server 8000; disk := fs; io_log := [] |}.

End examples.

(** ** The request handler: query strings and [GET] requests *)

Module request_handler.
Import persist flowsheet model_server.

(** [s.split(sep)] for a separator of one character: the pieces between
    the separators, so one piece more than there are separators. *)
Fixpoint split_on (sep : ascii) (s : string) : list string :=
  match s with
  | EmptyString => [EmptyString]
  | String c rest =>
      if Ascii.eqb c sep then EmptyString :: split_on sep rest
      else match split_on sep rest with
           | piece :: pieces => String c piece :: pieces
           | [] => [String c EmptyString]
           end
  end.

(** One round of the loop of [_parse_flowsheet_url]: an item that is not
    a [name=value] pair is skipped. *)
Definition add_query_item (queries : gmap string string) (item : string)
  : gmap string string :=
  match split_on "=" item with
  | [name; value] => <[name := value]> queries
  | _ => queries
  end.

(** [_parse_flowsheet_url], on the query component that [urlparse] found:
    [None] when there is no query, else the dictionary of its pairs. *)
Definition _parse_flowsheet_url (query : string)
  : option (gmap string string) :=
  match query with
  | EmptyString => None
  | _ => Some (foldl add_query_item ∅ (split_on "&" query))
  end.

(** [queries.get(key, None) if queries else None]. *)
Definition query_get (queries : option (gmap string string)) (key : string)
  : option string :=
  match queries with
  | Some q => if decide (q = ∅) then None else q !! key
  | None => None
  end.

(** What a [GET] request leads to: an error page ([send_error]), the
    events of a handler of this file, a handler that is outside this
    development ([_get_app], [_get_diagnostics], the static files), or an
    exception that leaves the handler. *)
Inductive get_outcome : Type :=
  | SendError (code : Z) (message : string)
  | Handled (events : list handler_event)
  | GetApp (id_ : string)
  | GetDiagnostics (id_ : option string)
  | StaticFile
  | Uncaught (e : exn).

Definition _get_fs (id_ : string) (w : world) : get_outcome * world :=
  match update_flowsheet id_ w with
  | (Ok merged, w') => (Handled (fst (_write_json 200 (JObj merged))), w')
  | (Raise err, w') =>
      match err with
      | FlowsheetUnknown _ => (SendError 404 (exn_str err), w')
      | FlowsheetNotFoundInDatastore _ | FlowsheetNotFoundInMemory _
      | ProcessingError _ => (SendError 500 (exn_str err), w')
      | _ => (Uncaught err, w')
      end
  end.

(** [do_GET], for the path and the query of the parsed request line. *)
Definition do_GET (path query : string) (w : world) : get_outcome * world :=
  let queries := _parse_flowsheet_url query in
  let id_ := query_get queries "id" in
  if bool_decide (path = "/app") || bool_decide (path = "/fs") then
    match id_ with
    | None =>
        (SendError 400
           ("Query parameter 'id' is required for '" +:+ path +:+ "'"), w)
    | Some id_ =>
        if bool_decide (path = "/app") then (GetApp id_, w)
        else _get_fs id_ w
    end
  else if bool_decide (path = "/setting") then
    match query_get queries "setting_key" with
    | None =>
        (SendError 400
           ("Query parameter 'setting_key' is required for '" +:+ path
            +:+ "'"), w)
    | Some setting_key_ =>
        match _get_setting setting_key_ w with
        | (events, Ok _) => (Handled events, w)
        | (_, Raise e) => (Uncaught e, w)
        end
    end
  else if bool_decide (path = "/diagnostics") then (GetDiagnostics id_, w)
  else (StaticFile, w).

(** ["&".join(items)]. *)
Definition join_query (items : list string) : string :=
  String.concat "&" items.

(** [f"{name}={value}"]. *)
Definition query_pair (pair : string * string) : string :=
  pair.1 +:+ "=" +:+ pair.2.

(** How often a character occurs in a string. *)
Fixpoint count_char (c : ascii) (s : string) : nat :=
  match s with
  | EmptyString => 0
  | String c' rest => (if Ascii.eqb c' c then 1 else 0) + count_char c rest
  end.

(** A piece of text that holds neither [&] nor [=]. *)
Definition plain (s : string) : Prop :=
  count_char "&" s = 0 ∧ count_char "=" s = 0.

End request_handler.

(** * Theorems *)

Import persist flowsheet model_server.

(** ** Canonical flowsheet names *)

Section canonical_names.

Local Ltac by_char c := destruct c as [[] [] [] [] [] [] [] []]; reflexivity.

Lemma dash_eqb c : Ascii.eqb c "-" = true → c = "-"%char.
Proof. apply Ascii.eqb_eq. Qed.

(** The dash is in the class of the regular expression, so it is kept, but
    keeping a dash and replacing it by a dash are the same. *)
Lemma unreserved_char c :
  (if unreserved c then c else "-"%char)
  = (if spec.kept_no_tilde c then c else "-"%char).
Proof. by_char c. Qed.

Lemma sub_reserved_replace s :
  sub_reserved s = spec.replace_outside spec.kept_no_tilde s.
Proof.
  induction s as [|c s IH]; simpl; [done|]. by rewrite unreserved_char, IH.
Qed.

(** Keeping the first dash of a run or the last one gives the same
    string. *)
Lemma sub_dashes_collapse s :
  sub_dashes false s = spec.collapse s
  ∧ String "-" (sub_dashes true s) = spec.collapse (String "-" s).
Proof.
  induction s as [|c s [IHf IHt]]; [done|].
  assert (sub_dashes false (String c s) = spec.collapse (String c s)) as Hf.
  { simpl. destruct (Ascii.eqb c "-") eqn:Hc.
    - apply dash_eqb in Hc as ->. exact IHt.
    - rewrite IHf. by destruct s. }
  split; [exact Hf|].
  change (spec.collapse (String "-" (String c s)))
    with (if Ascii.eqb "-" "-" && Ascii.eqb c "-"
          then spec.collapse (String c s)
          else String "-" (spec.collapse (String c s))).
  simpl sub_dashes. simpl (Ascii.eqb "-" "-" && _).
  destruct (Ascii.eqb c "-") eqn:Hc.
  - apply dash_eqb in Hc as ->. exact IHt.
  - by rewrite <- Hf; simpl; rewrite Hc.
Qed.

Lemma canonical_name_as_spec_rule s :
  canonical_flowsheet_name s
  = spec.canonicalize_over spec.kept_no_tilde s.
Proof.
  unfold canonical_flowsheet_name, spec.canonicalize_over.
  rewrite sub_reserved_replace. apply sub_dashes_collapse.
Qed.

(** A string of characters of [A-Za-z0-9._] has no dash to collapse and
    no character to replace. *)
Lemma sub_reserved_kept s :
  spec.all_chars spec.kept_no_tilde s = true → sub_reserved s = s.
Proof.
  induction s as [|c s IH]; simpl; [done|].
  intros [Hc Hs]%andb_prop. rewrite IH by done. f_equal.
  revert Hc. destruct c as [[] [] [] [] [] [] [] []]; done.
Qed.

Lemma sub_dashes_kept b s :
  spec.all_chars spec.kept_no_tilde s = true → sub_dashes b s = s.
Proof.
  revert b. induction s as [|c s IH]; simpl; [done|].
  intros b [Hc Hs]%andb_prop.
  assert (Ascii.eqb c "-" = false) as ->.
  { revert Hc. destruct c as [[] [] [] [] [] [] [] []]; done. }
  by rewrite IH.
Qed.

(** Every character of a canonical name is in the class of the regular
    expression. *)
Lemma sub_reserved_unreserved s :
  spec.all_chars unreserved (sub_reserved s) = true.
Proof.
  induction s as [|c s IH]; simpl; [done|]. rewrite IH, andb_true_r.
  by destruct (unreserved c) eqn:Hc.
Qed.

Lemma sub_dashes_unreserved b s :
  spec.all_chars unreserved s = true →
  spec.all_chars unreserved (sub_dashes b s) = true.
Proof.
  revert b. induction s as [|c s IH]; simpl; [done|].
  intros b [Hc Hs]%andb_prop.
  destruct (Ascii.eqb c "-"); [destruct b|].
  - by apply IH.
  - change (spec.all_chars unreserved (sub_dashes true s) = true).
    by apply IH.
  - simpl. rewrite Hc. by apply IH.
Qed.

Lemma sub_reserved_id s :
  spec.all_chars unreserved s = true → sub_reserved s = s.
Proof.
  induction s as [|c s IH]; simpl; [done|].
  intros [-> Hs]%andb_prop. by rewrite IH.
Qed.

(** A second pass finds no run of dashes longer than one. *)
Lemma sub_dashes_again b' b s :
  (b' = true → b = true) →
  sub_dashes b' (sub_dashes b s) = sub_dashes b s.
Proof.
  revert b' b. induction s as [|c s IH]; intros b' b Hb; simpl; [done|].
  destruct (Ascii.eqb c "-") eqn:Hc.
  - destruct b.
    + by apply IH.
    + destruct b'; [by discriminate Hb|].
      simpl. by rewrite IH.
  - simpl. rewrite Hc. by rewrite IH.
Qed.

End canonical_names.

(** C3, as the specification states it: the rule with the class
    [A-Za-z0-9._~] does not describe the code, which turns a tilde into a
    dash. *)
Lemma canonical_name_tilde_counterexample :
  ¬ (∀ s, canonical_flowsheet_name s = spec.canonicalize s).
Proof. intros H. specialize (H "a~b"). vm_compute in H. discriminate H. Qed.

(** C3, amended: the canonical name is obtained by replacing every
    character outside [A-Za-z0-9._] (so a tilde too) with a dash and then
    collapsing every run of dashes into one dash; a name made of characters
    of [A-Za-z0-9._] only is left as it is. *)
Theorem canonical_name_rule :
  ∀ s,
    canonical_flowsheet_name s = spec.canonicalize_over spec.kept_no_tilde s
    ∧ (spec.all_chars spec.kept_no_tilde s = true →
       canonical_flowsheet_name s = s).
Proof.
  intros s. split; [apply canonical_name_as_spec_rule|].
  intros Hs. unfold canonical_flowsheet_name.
  rewrite sub_reserved_kept by done. by apply sub_dashes_kept.
Qed.

Lemma canonical_name_rule_witness :
  canonical_flowsheet_name "Flash_01.v2"
  = spec.canonicalize_over spec.kept_no_tilde "Flash_01.v2"
  ∧ canonical_flowsheet_name "Flash_01.v2" = "Flash_01.v2".
Proof.
  destruct (canonical_name_rule "Flash_01.v2") as [H1 H2].
  split; [exact H1|]. apply H2. reflexivity.
Defined.

(** C8: canonicalization is idempotent. *)
Theorem canonical_name_idempotent :
  ∀ s,
    canonical_flowsheet_name (canonical_flowsheet_name s)
    = canonical_flowsheet_name s.
Proof.
  intros s. unfold canonical_flowsheet_name.
  rewrite sub_reserved_id.
  - by apply sub_dashes_again.
  - apply sub_dashes_unreserved, sub_reserved_unreserved.
Qed.

(** ** Reconciliation: [update_flowsheet] *)

Section reconciliation.

Implicit Types (w : world) (stored live : document).

(** The diff is empty exactly when the two documents are equal. *)
Lemma diff_bool_false stored live :
  diff_bool {| diff_old := stored; diff_new := live |} = false
  ↔ stored = live.
Proof.
  unfold diff_bool, diff_len, diff_keys. simpl.
  rewrite negb_false_iff, Nat.eqb_eq, size_empty_iff.
  split.
  - intros Hempty. apply map_eq. intros k.
    destruct (decide (stored !! k = live !! k)) as [|Hne]; [done|].
    destruct (decide (k ∈ dom stored ∪ dom live)) as [Hin|Hout].
    + exfalso. apply (not_elem_of_empty (C:=gset string) k).
      rewrite <- Hempty. by apply elem_of_filter.
    + apply not_elem_of_union in Hout as [H1 H2].
      apply not_elem_of_dom in H1, H2. congruence.
  - intros ->. apply elem_of_equiv_empty. intros k [Hk _]%elem_of_filter.
    done.
Qed.

Lemma diff_bool_true stored live :
  stored ≠ live →
  diff_bool {| diff_old := stored; diff_new := live |} = true.
Proof.
  intros Hne. apply not_false_iff_true. by rewrite diff_bool_false.
Qed.

Lemma merged_same stored :
  merged {| diff_old := stored; diff_new := stored |} = stored.
Proof. unfold merged. simpl. apply map_eq. intros k.
  rewrite lookup_union. by destruct (stored !! k). Qed.

Lemma load_flowsheet_world (id_ : string) w :
  _load_flowsheet id_ w = (fst (_load_flowsheet id_ w), w).
Proof. reflexivity. Qed.

(** The steps of [update_flowsheet] up to the diff, when none of them
    fails. *)
Lemma update_flowsheet_unfold (id_ : string) w stored obj live :
  fst (_load_flowsheet id_ w) = Ok stored →
  _flowsheets (self w) !! id_ = Some obj →
  as_dict obj id_ = Ok live →
  update_flowsheet id_ w
  = let diff := {| diff_old := stored; diff_new := live |} in
    bind (if negb (diff_bool diff) then ret tt
          else save_flowsheet id_ (merged diff))
         (λ _, ret (merged diff)) w.
Proof.
  intros Hload Hobj Hlive. unfold update_flowsheet.
  unfold bind at 1, try_except at 1. rewrite load_flowsheet_world, Hload.
  unfold bind at 1, try_except at 1, _get_flowsheet_obj, dict_getitem.
  rewrite Hobj.
  unfold bind at 1, try_except at 1, _serialize_flowsheet.
  unfold try_except at 1, lift. rewrite Hlive. reflexivity.
Qed.

End reconciliation.

(** C2: when the stored document equals the freshly serialized live
    document, [update_flowsheet] saves nothing (the server, the files and
    the log of writes are as before) and returns the stored document. *)
Theorem update_without_diff_saves_nothing :
  ∀ (id_ : string) (w : world) (stored : document) (obj : Flowsheet),
    fst (_load_flowsheet id_ w) = Ok stored →
    _flowsheets (self w) !! id_ = Some obj →
    as_dict obj id_ = Ok stored →
    update_flowsheet id_ w = (Ok stored, w).
Proof.
  intros id_ w stored obj Hload Hobj Hlive.
  rewrite (update_flowsheet_unfold id_ w stored obj stored) by done.
  cbv zeta. rewrite (proj2 (diff_bool_false stored stored)) by done.
  simpl. unfold bind, ret. by rewrite merged_same.
Qed.

(** C1: when the stored and the live document differ, [update_flowsheet]
    returns and saves the document merged by key-level override: a
    top-level key of the live document has the live value, and a key only in
    the stored document keeps the stored value. *)
Theorem update_merges_by_key :
  ∀ (id_ : string) (w : world) (stored live : document) (obj : Flowsheet),
    fst (_load_flowsheet id_ w) = Ok stored →
    _flowsheets (self w) !! id_ = Some obj →
    as_dict obj id_ = Ok live →
    stored ≠ live →
    (∀ p, _dsm (self w) !! id_ = Some (FileDataStore p) →
          p ∉ unwritable (disk w)) →
    ∃ (m : document) (w' : world),
      update_flowsheet id_ w = (Ok m, w')
      ∧ (∀ k, is_Some (live !! k) → m !! k = live !! k)
      ∧ (∀ k, live !! k = None → m !! k = stored !! k)
      ∧ io_log w' = io_log w ++ [StoreSaved m]
      ∧ fst (_load_flowsheet id_ w') = Ok m.
Proof.
  intros id_ w stored live obj Hload Hobj Hlive Hne Hwr.
  rewrite (update_flowsheet_unfold id_ w stored obj live) by done.
  cbv zeta. rewrite diff_bool_true by done. simpl negb. cbv iota.
  set (m := merged {| diff_old := stored; diff_new := live |}).
  assert (∀ k, is_Some (live !! k) → m !! k = live !! k) as Hlivekeys.
  { intros k [v Hv]. unfold m, merged. simpl.
    by rewrite lookup_union, Hv, union_Some_l. }
  assert (∀ k, live !! k = None → m !! k = stored !! k) as Hstoredkeys.
  { intros k Hk. unfold m, merged. simpl.
    by rewrite lookup_union, Hk, (left_id None _). }
  unfold bind, save_flowsheet, try_except, _dsm_save, dsm_save.
  unfold _load_flowsheet, dsm_load in Hload. simpl in Hload.
  destruct (_dsm (self w) !! id_) as [store|] eqn:Hstore; [|done].
  destruct store as [p|data]; simpl.
  - rewrite decide_False by by apply Hwr.
    eexists m, _. split; [reflexivity|]. repeat split; try done.
    unfold _load_flowsheet, dsm_load. simpl.
    rewrite lookup_insert_eq. simpl. by rewrite lookup_insert_eq.
  - eexists m, _. split; [reflexivity|]. repeat split; try done.
    unfold _load_flowsheet, dsm_load. simpl.
    by rewrite lookup_insert_eq.
Qed.

Lemma update_merges_by_key_witness :
  ∃ (m : document) (w' : world),
    update_flowsheet "fs"
      (examples.world_with (examples.flowsheet_of examples.doc_live)
         (Some examples.doc_stored)) = (Ok m, w')
    ∧ (∀ k, is_Some (examples.doc_live !! k) → m !! k = examples.doc_live !! k)
    ∧ (∀ k, examples.doc_live !! k = None → m !! k = examples.doc_stored !! k)
    ∧ io_log w' = [] ++ [StoreSaved m]
    ∧ fst (_load_flowsheet "fs" w') = Ok m.
Proof.
  apply (update_merges_by_key "fs"
           (examples.world_with (examples.flowsheet_of examples.doc_live)
              (Some examples.doc_stored))
           examples.doc_stored examples.doc_live
           (examples.flowsheet_of examples.doc_live)).
  - reflexivity.
  - reflexivity.
  - reflexivity.
  - intros H. apply (f_equal (lookup "a")) in H. vm_compute in H.
    discriminate H.
  - intros p H. vm_compute in H. discriminate H.
Defined.

(** The example of the specification: stored [{"a":1,"layout":{"x":5}}] and
    live [{"a":2}] merge to [{"a":2,"layout":{"x":5}}]. *)
Example update_merges_example :
  fst (update_flowsheet "fs"
         (examples.world_with (examples.flowsheet_of examples.doc_live)
            (Some examples.doc_stored)))
  = Ok examples.doc_merged.
Proof.
  assert (∀ r : pyresult document,
            (match r with Ok m => bool_decide (m = examples.doc_merged)
                        | Raise _ => false end) = true →
            r = Ok examples.doc_merged) as Hdec.
  { intros [m|e] H; [|done]. by apply bool_decide_eq_true in H as ->. }
  apply Hdec. vm_compute. reflexivity.
Qed.

Lemma update_without_diff_saves_nothing_witness :
  update_flowsheet "fs"
    (examples.world_with (examples.flowsheet_of examples.doc_stored)
       (Some examples.doc_stored))
  = (Ok examples.doc_stored,
     examples.world_with (examples.flowsheet_of examples.doc_stored)
       (Some examples.doc_stored)).
Proof.
  apply (update_without_diff_saves_nothing "fs" _ examples.doc_stored
           (examples.flowsheet_of examples.doc_stored)); reflexivity.
Defined.

(** ** Failure causes of [update_flowsheet] *)




(** An exception of the serializer that the server does not catch leaves
    [update_flowsheet] as it is. *)
Lemma update_uncaught_serializer_error (id_ : string) (w : world)
    (stored : document) (obj : Flowsheet) (e : exn) :
  fst (_load_flowsheet id_ w) = Ok stored →
  _flowsheets (self w) !! id_ = Some obj →
  as_dict obj id_ = Raise e →
  spec.caught_serializer_error e = false →
  update_flowsheet id_ w = (Raise e, w).
Proof.
  intros Hload Hobj Hser Hcaught. unfold update_flowsheet.
  unfold bind at 1, try_except at 1. rewrite load_flowsheet_world, Hload.
  unfold bind at 1, try_except at 1, _get_flowsheet_obj, dict_getitem.
  rewrite Hobj.
  unfold bind, try_except, _serialize_flowsheet, lift, raise.
  rewrite Hser. by destruct e.
Qed.

(** ** Settings *)

(** C9: [get_setting] never raises.  For a key of the settings block it
    returns the stored value, for any other key it returns [None]; either
    way the handler answers 200 with the value (or null), and a key that
    [add_setting] has set is a key of the block. *)
Theorem get_setting_never_raises :
  ∀ (key : string) (w : world),
    (∀ v, _settings_block (self w) !! key = Some v →
          get_setting key w = (Ok v, w)
          ∧ _get_setting key w
            = ([Response 200 (JObj {[ "setting_value" := v ]})], Ok tt))
    ∧ (_settings_block (self w) !! key = None →
       get_setting key w = (Ok JNull, w)
       ∧ _get_setting key w
         = ([Response 200 (JObj {[ "setting_value" := JNull ]})], Ok tt))
    ∧ (∀ v, get_setting key (snd (add_setting key v w))
            = (Ok v, snd (add_setting key v w)))
    ∧ is_Ok (fst (get_setting key w)) = true.
Proof.
  intros key w.
  assert (∀ v, _settings_block (self w) !! key = Some v →
               get_setting key w = (Ok v, w)) as Hsome.
  { intros v Hv. unfold get_setting, dict_getitem.
    rewrite bool_decide_eq_false_2; [by rewrite Hv|].
    intros Hnot. by apply not_elem_of_dom in Hnot; congruence. }
  assert (_settings_block (self w) !! key = None →
          get_setting key w = (Ok JNull, w)) as Hnone.
  { intros Hv. unfold get_setting.
    by rewrite bool_decide_eq_true_2 by by apply not_elem_of_dom. }
  repeat split.
  - by apply Hsome.
  - unfold _get_setting. by rewrite (Hsome v).
  - by apply Hnone.
  - unfold _get_setting. by rewrite Hnone.
  - intros v. unfold get_setting, dict_getitem, add_setting. simpl.
    rewrite bool_decide_eq_false_2; [by rewrite lookup_insert_eq|].
    intros Hnot. apply Hnot, elem_of_dom. rewrite lookup_insert_eq. eauto.
  - destruct (_settings_block (self w) !! key) as [v|] eqn:Hkey.
    + by rewrite (Hsome v).
    + by rewrite Hnone.
Qed.

Lemma get_setting_never_raises_witness :
  (get_setting "save_time_interval"
     (examples.world_with (examples.flowsheet_of examples.doc_live) None)
   = (Ok (JNum 5000),
      examples.world_with (examples.flowsheet_of examples.doc_live) None)
   ∧ _get_setting "save_time_interval"
       (examples.world_with (examples.flowsheet_of examples.doc_live) None)
     = ([Response 200 (JObj {[ "setting_value" := JNum 5000 ]})], Ok tt))
  ∧ (get_setting "theme"
       (examples.world_with (examples.flowsheet_of examples.doc_live) None)
     = (Ok JNull,
        examples.world_with (examples.flowsheet_of examples.doc_live) None)
     ∧ _get_setting "theme"
         (examples.world_with (examples.flowsheet_of examples.doc_live) None)
       = ([Response 200 (JObj {[ "setting_value" := JNull ]})], Ok tt)).
Proof.
  split.
  - apply (get_setting_never_raises "save_time_interval"
             (examples.world_with (examples.flowsheet_of examples.doc_live)
                None)).
    reflexivity.
  - apply (get_setting_never_raises "theme"
             (examples.world_with (examples.flowsheet_of examples.doc_live)
                None)).
    reflexivity.
Defined.

(** ** Diagnostics requests: [_put_diagnostic] *)

Section diagnostics.

Local Ltac no_invoked Hin :=
  exfalso; simpl in Hin;
  repeat (apply elem_of_cons in Hin as [Hin|Hin]; [discriminate Hin|]);
  by apply elem_of_nil in Hin.

(** Whatever the handler calls is a method found by name among the
    attributes of the toolbox of the flowsheet the request names. *)
Lemma put_diagnostic_invokes_attribute (request_data : pyresult json)
    (w : world) (a : string) :
  Invoked a ∈ _put_diagnostic request_data w →
  ∃ rd id_ fs dt run,
    request_data = Ok rd
    ∧ json_get rd "function_name" (JStr "") = Ok (JStr a)
    ∧ json_get rd "id" (JStr "") = Ok (JStr id_)
    ∧ _flowsheets (self w) !! id_ = Some fs
    ∧ diagnostics_toolbox fs = Ok dt
    ∧ dt !! a = Some (Method run).
Proof.
  unfold _put_diagnostic, hbind, hlift, _run_function, _write_json, hret.
  intros Hin.
  destruct request_data as [rd|e]; [|no_invoked Hin].
  destruct (json_get rd "function_name" (JStr "")) as [fn|e] eqn:Hfn;
    [|no_invoked Hin].
  destruct (json_get rd "id" (JStr "")) as [i|e] eqn:Hid; [|no_invoked Hin].
  destruct (_flowsheet_of_json i w) as [fs|e] eqn:Hfs; [|no_invoked Hin].
  destruct (diagnostics_toolbox fs) as [dt|e] eqn:Hdt; [|no_invoked Hin].
  destruct fn as [| | |name| |]; try no_invoked Hin.
  destruct (dt !! name) as [[run|v]|] eqn:Hattr; try no_invoked Hin.
  assert (a = name) as ->.
  { destruct run; simpl in Hin.
    all: apply elem_of_cons in Hin as [Hin|Hin];
      [by injection Hin|no_invoked Hin]. }
  destruct i as [| | |id_| |]; try discriminate Hfs.
  unfold _flowsheet_of_json, _get_flowsheet_obj, dict_getitem in Hfs.
  simpl in Hfs.
  destruct (_flowsheets (self w) !! id_) eqn:Hlook; [|discriminate].
  injection Hfs as ->.
  eexists rd, id_, _, dt, run. repeat split; try eassumption; reflexivity.
Qed.

(** The events of a request that names a registered flowsheet and a
    function by strings. *)
Lemma put_diagnostic_events (rd : json) (w : world) (name id_ : string)
    (fs : Flowsheet) (dt : gmap string attribute) :
  json_get rd "function_name" (JStr "") = Ok (JStr name) →
  json_get rd "id" (JStr "") = Ok (JStr id_) →
  _flowsheets (self w) !! id_ = Some fs →
  diagnostics_toolbox fs = Ok dt →
  _put_diagnostic (Ok rd) w
  = let failed e :=
      Response 500
        (JObj {[ "error" :=
           JStr ("Error running diagnostics: " +:+ exn_str e
                 +:+ ", please check your flowsheet!") ]}) in
    match dt !! name with
    | Some (Method (Ok out)) =>
        [Invoked name;
         Response 200 (JObj {[ "diagnostics_runner_result" := JStr out ]})]
    | Some (Method (Raise e)) => [Invoked name; failed e]
    | Some (Data _) => [failed (TypeError "object is not callable")]
    | None =>
        [Response 500
           (JObj {[ "error" := JStr ("Unknown function: " +:+ name) ]});
         failed (UnboundLocalError "output_stream")]
    end.
Proof.
  intros Hfn Hid Hfs Hdt.
  unfold _put_diagnostic, hbind, hlift, _run_function, _write_json, hret.
  rewrite Hfn, Hid.
  unfold _flowsheet_of_json, _get_flowsheet_obj, dict_getitem. simpl.
  rewrite Hfs, Hdt.
  by destruct (dt !! name) as [[[out|e]|v]|].
Qed.

Lemma request_function_name (name : string) :
  json_get (examples.request name) "function_name" (JStr "")
  = Ok (JStr name).
Proof. reflexivity. Qed.

Lemma request_id (name : string) :
  json_get (examples.request name) "id" (JStr "") = Ok (JStr "fs").
Proof. reflexivity. Qed.

End diagnostics.

(** C4, as the specification states it: no fixed list of names bounds what
    the handler can call; for any list there is a name outside it that the
    handler calls when the toolbox has a method of that name. *)
Lemma allow_list_counterexample : ¬ spec.dispatch_by_allow_list.
Proof.
  intros [allowed Hallowed].
  apply (infinite_is_fresh allowed).
  apply (Hallowed (Ok (examples.request (fresh allowed)))
           (examples.world_with_method (fresh allowed))).
  erewrite put_diagnostic_events;
    [|apply request_function_name|apply request_id|reflexivity|reflexivity].
  cbv zeta. rewrite lookup_singleton_eq. apply list_elem_of_here.
Qed.

(** C4, amended: the operation name is resolved by attribute lookup on the
    diagnostics object.  The handler calls nothing but the attribute of the
    toolbox that the request names; it calls a method whenever the toolbox
    has one of that name; and a name that is no attribute of the toolbox is
    rejected with the error "Unknown function" without any call. *)
Theorem diagnostics_dispatch_by_attribute_lookup :
  ∀ (request_data : pyresult json) (w : world),
    (∀ a, Invoked a ∈ _put_diagnostic request_data w →
          ∃ rd id_ fs dt run,
            request_data = Ok rd
            ∧ json_get rd "function_name" (JStr "") = Ok (JStr a)
            ∧ json_get rd "id" (JStr "") = Ok (JStr id_)
            ∧ _flowsheets (self w) !! id_ = Some fs
            ∧ diagnostics_toolbox fs = Ok dt
            ∧ dt !! a = Some (Method run))
    ∧ (∀ rd name id_ fs dt,
         request_data = Ok rd →
         json_get rd "function_name" (JStr "") = Ok (JStr name) →
         json_get rd "id" (JStr "") = Ok (JStr id_) →
         _flowsheets (self w) !! id_ = Some fs →
         diagnostics_toolbox fs = Ok dt →
         (∀ run, dt !! name = Some (Method run) →
                 Invoked name ∈ _put_diagnostic request_data w)
         ∧ (dt !! name = None →
            (∀ a, Invoked a ∉ _put_diagnostic request_data w)
            ∧ head (_put_diagnostic request_data w)
              = Some (Response 500
                        (JObj {[ "error" :=
                                   JStr ("Unknown function: " +:+ name) ]})))).
Proof.
  intros request_data w. split.
  - intros a. apply put_diagnostic_invokes_attribute.
  - intros rd name id_ fs dt -> Hfn Hid Hfs Hdt.
    rewrite (put_diagnostic_events rd w name id_ fs dt) by done.
    cbv zeta. split.
    + intros run ->. destruct run; apply list_elem_of_here.
    + intros ->. split; [|done].
      intros a Hin.
      repeat (apply elem_of_cons in Hin as [Hin|Hin]; [discriminate Hin|]).
      by apply elem_of_nil in Hin.
Qed.

Lemma diagnostics_dispatch_by_attribute_lookup_witness :
  Invoked "report_structural_issues"
    ∈ _put_diagnostic (Ok (examples.request "report_structural_issues"))
        (examples.world_with (examples.flowsheet_of examples.doc_live) None)
  ∧ (∀ a, Invoked a
            ∉ _put_diagnostic (Ok (examples.request "shutdown"))
                (examples.world_with
                   (examples.flowsheet_of examples.doc_live) None))
  ∧ head (_put_diagnostic (Ok (examples.request "shutdown"))
            (examples.world_with
               (examples.flowsheet_of examples.doc_live) None))
    = Some (Response 500
              (JObj {[ "error" := JStr "Unknown function: shutdown" ]})).
Proof.
  split.
  - eapply (diagnostics_dispatch_by_attribute_lookup
              (Ok (examples.request "report_structural_issues"))
              (examples.world_with
                 (examples.flowsheet_of examples.doc_live) None));
      reflexivity.
  - eapply (diagnostics_dispatch_by_attribute_lookup
              (Ok (examples.request "shutdown"))
              (examples.world_with
                 (examples.flowsheet_of examples.doc_live) None));
      reflexivity.
Defined.

(** ** Save paths: [_handle_existing_save_path] *)

Import fsvis.

Section save_paths.

Context (fs : filesystem) (save_dir : Path) (name : string)
        (max_versions : Z).

(** The loop stops when the path is free or the counter is at the
    ceiling. *)
Lemma version_loop_stop (counter : Z) (save_path : Path) :
  path_exists save_path fs && (counter <? max_versions)%Z = false →
  version_loop fs save_dir name max_versions counter save_path
  = (counter, save_path).
Proof.
  intros Hstop. rewrite version_loop_unfold_eq. unfold version_loop_unfold.
  destruct (inspect _) as [[] Hb]; simpl; [congruence|done].
Qed.

(** Otherwise it moves on to the next numbered file. *)
Lemma version_loop_step (counter : Z) (save_path : Path) :
  path_exists save_path fs = true →
  (counter < max_versions)%Z →
  version_loop fs save_dir name max_versions counter save_path
  = version_loop fs save_dir name max_versions (counter + 1)
      (versioned save_dir name (counter + 1)).
Proof.
  intros Hex Hlt. rewrite version_loop_unfold_eq at 1.
  unfold version_loop_unfold.
  destruct (inspect _) as [[] Hb]; simpl; [done|].
  apply andb_false_iff in Hb as [Hb|Hb]; [congruence|].
  apply Z.ltb_ge in Hb. lia.
Qed.

(** It passes over a run of numbered files that all exist. *)
Lemma version_loop_run (n : nat) (counter : Z) :
  (∀ i, (counter ≤ i < counter + Z.of_nat n)%Z →
        path_exists (versioned save_dir name i) fs = true) →
  (counter + Z.of_nat n ≤ max_versions)%Z →
  version_loop fs save_dir name max_versions counter
    (versioned save_dir name counter)
  = version_loop fs save_dir name max_versions (counter + Z.of_nat n)
      (versioned save_dir name (counter + Z.of_nat n)).
Proof.
  revert counter. induction n as [|n IH]; intros counter Hex Hle.
  - by rewrite Z.add_0_r.
  - rewrite version_loop_step; [|apply Hex; lia|lia].
    rewrite IH; [|intros i Hi; apply Hex; lia|lia].
    by replace (counter + 1 + Z.of_nat n)%Z
      with (counter + Z.of_nat (S n))%Z by lia.
Qed.

(** From the base path: when the base file and the numbered files below
    [k] exist, the loop ends at [k] if the file numbered [k] is free, and
    also if [k] is the ceiling, whether that file is free or not. *)
Lemma version_loop_result (save_path : Path) (k : Z) :
  path_exists save_path fs = true →
  (1 ≤ k ≤ max_versions)%Z →
  (∀ i, (1 ≤ i < k)%Z →
        path_exists (versioned save_dir name i) fs = true) →
  path_exists (versioned save_dir name k) fs = false ∨ k = max_versions →
  version_loop fs save_dir name max_versions 0 save_path
  = (k, versioned save_dir name k).
Proof.
  intros Hbase Hk Hbelow Hend.
  rewrite version_loop_step by (done || lia).
  rewrite (version_loop_run (Z.to_nat (k - 1)));
    [|intros i Hi; apply Hbelow; lia|lia].
  replace (0 + 1 + Z.of_nat (Z.to_nat (k - 1)))%Z with k by lia.
  apply version_loop_stop. apply andb_false_iff.
  destruct Hend as [Hfree| ->]; [by left|right]. by apply Z.ltb_ge.
Qed.

End save_paths.

(** Without [overwrite], when the base file and the numbered files below
    [k] exist and the file numbered [k] is free, that file is chosen,
    provided [k] is below the ceiling; nothing is written. *)
Lemma handle_existing_save_path_first_free (name : string)
    (save_path : Path) (max_versions k : Z) (w : world) :
  path_exists save_path (disk w) = true →
  (1 ≤ k < spec.effective_ceiling max_versions)%Z →
  (∀ i, (1 ≤ i < k)%Z →
        path_exists (versioned (path_parent save_path) name i) (disk w)
        = true) →
  path_exists (versioned (path_parent save_path) name k) (disk w) = false →
  _handle_existing_save_path name save_path max_versions false w
  = (Ok (versioned (path_parent save_path) name k), w).
Proof.
  intros Hbase Hk Hbelow Hfree. unfold _handle_existing_save_path.
  rewrite Hbase. simpl negb. cbv iota.
  fold (spec.effective_ceiling max_versions).
  rewrite (version_loop_result _ _ _ _ _ k) by (done || lia || by left).
  by rewrite (proj2 (Z.eqb_neq _ _)) by lia.
Qed.

(** Without [overwrite], when the base file and the numbered files below
    the ceiling exist, the call fails, whether the file numbered with the
    ceiling exists or not; the message names the ceiling and the base
    name. *)
Lemma handle_existing_save_path_exhausted (name : string)
    (save_path : Path) (max_versions : Z) (w : world) :
  path_exists save_path (disk w) = true →
  (1 ≤ spec.effective_ceiling max_versions)%Z →
  (∀ i, (1 ≤ i < spec.effective_ceiling max_versions)%Z →
        path_exists (versioned (path_parent save_path) name i) (disk w)
        = true) →
  _handle_existing_save_path name save_path max_versions false w
  = (Raise (TooManySavedVersions
              ("Found " +:+ pretty (spec.effective_ceiling max_versions)
               +:+ " numbered files of form '" +:+ name
               +:+ "-<num>.json'. That's too many.")), w).
Proof.
  intros Hbase Hmax Hbelow. unfold _handle_existing_save_path.
  rewrite Hbase. simpl negb. cbv iota.
  fold (spec.effective_ceiling max_versions).
  rewrite (version_loop_result _ _ _ _ _ (spec.effective_ceiling max_versions))
    by (done || lia || by right).
  by rewrite Z.eqb_refl.
Qed.

(** Three saves of ["x"] into an empty directory, with the default ceiling:
    [x.json], then [x-1.json], then [x-2.json]. *)
Example three_saves_in_order :
  fst (_handle_existing_save_path "x" ["x.json"] MAX_SAVED_VERSIONS false
         (examples.world_on (examples.directory [])))
  = Ok ["x.json"]
  ∧ fst (_handle_existing_save_path "x" ["x.json"] MAX_SAVED_VERSIONS false
           (examples.world_on (examples.directory ["x.json"])))
    = Ok ["x-1.json"]
  ∧ fst (_handle_existing_save_path "x" ["x.json"] MAX_SAVED_VERSIONS false
           (examples.world_on (examples.directory ["x.json"; "x-1.json"])))
    = Ok ["x-2.json"].
Proof. repeat split; vm_compute; reflexivity. Qed.

(** With a ceiling of zero the first free numbered file is chosen, however
    many there are below [sys.maxsize]. *)
Example unbounded_ceiling_picks_first_free :
  _handle_existing_save_path "x" ["x.json"] 0 false
    (examples.world_on (examples.directory ["x.json"; "x-1.json"]))
  = (Ok ["x-2.json"],
     examples.world_on (examples.directory ["x.json"; "x-1.json"])).
Proof.
  apply (handle_existing_save_path_first_free "x" ["x.json"] 0 2).
  - reflexivity.
  - vm_compute. split; congruence.
  - intros i Hi. assert (i = 1%Z) as -> by lia. reflexivity.
  - reflexivity.
Qed.

(** C5, at the input where the code departs from it: with a ceiling of 2
    and the files [x.json] and [x-1.json], the first free path is
    [x-2.json], numbered with the ceiling, but the call fails with
    [TooManySavedVersions] instead of choosing it. *)
Theorem ceiling_path_free_but_rejected :
  path_exists ["x-2.json"] (examples.directory ["x.json"; "x-1.json"]) = false
  ∧ _handle_existing_save_path "x" ["x.json"] 2 false
      (examples.world_on (examples.directory ["x.json"; "x-1.json"]))
    = (Raise (TooManySavedVersions
                "Found 2 numbered files of form 'x-<num>.json'. That's too many."),
       examples.world_on (examples.directory ["x.json"; "x-1.json"])).
Proof. split; vm_compute; reflexivity. Qed.

(** C6, at the input where the code departs from it: with a ceiling of 1
    and the file [x.json] alone, the probe stands at 1, which does not
    exceed the ceiling, and [x-1.json] is free; yet the call fails, and its
    message counts one numbered file where there is none.  With a ceiling of
    2 and [x.json], [x-1.json] and [x-2.json] all present it fails as the
    claim says. *)
Theorem fails_before_ceiling_exceeded :
  path_exists ["x-1.json"] (examples.directory ["x.json"]) = false
  ∧ fst (_handle_existing_save_path "x" ["x.json"] 1 false
           (examples.world_on (examples.directory ["x.json"])))
    = Raise (TooManySavedVersions
               "Found 1 numbered files of form 'x-<num>.json'. That's too many.")
  ∧ fst (_handle_existing_save_path "x" ["x.json"] 2 false
           (examples.world_on
              (examples.directory ["x.json"; "x-1.json"; "x-2.json"])))
    = Raise (TooManySavedVersions
               "Found 2 numbered files of form 'x-<num>.json'. That's too many.").
Proof. repeat split; vm_compute; reflexivity. Qed.

(** ** Overwriting a save file: [visualize]

    C10, as stated: with [overwrite=True] and [load_from_saved=True] (the
    default) a save file that exists is loaded, not truncated. *)
Lemma overwrite_counterexample : ¬ spec.overwrite_always_truncates.
Proof.
  intros H.
  destruct (H (examples.flowsheet_of examples.doc_stored) "x" SaveNone true
              None (JNum 5000) None 100%Z 8000%Z None examples.saved_x []
              ["x.json"]) as [rest Hrest].
  - reflexivity.
  - reflexivity.
  - apply not_elem_of_empty.
  - vm_compute in Hrest. discriminate Hrest.
Qed.

(** The same input, evaluated: the call succeeds, nothing is written and
    the file holds the document it held. *)
Example overwrite_with_load_from_saved :
  let '(r, w') :=
    visualize (examples.flowsheet_of examples.doc_stored) "x" SaveNone true
      None (JNum 5000) true None 100 8000 None examples.saved_x [] in
  is_Ok r = true
  ∧ io_log w' = []
  ∧ files (disk w') !! ["x.json"] = Some (Saved examples.doc_stored).
Proof. vm_compute. repeat split. Qed.

(** With [overwrite=True] and [load_from_saved=False], when the save path
    exists (and can be written), the first write of the call is the
    truncation of that file, before any document is saved.  If the call
    then fails, nothing else was written and the file is left blank: the
    document it held is gone.  If the call succeeds, the one save that
    follows puts the serialized flowsheet in the file. *)
Lemma overwrite_without_loading :
  ∀ (flowsheet : Flowsheet) (name : string) (save : save_arg)
    (save_dir : option Path) (save_time_interval : json)
    (port_arg : option Z) (max_saved_versions free_port : Z)
    (web_server : option FlowsheetServer) (fs : filesystem)
    (log : list io_event) (p : Path),
    save_location name save save_dir = Ok (Some p) →
    path_exists p fs = true →
    p ∉ unwritable fs →
    ∃ r w' rest,
      visualize flowsheet name save false save_dir save_time_interval true
        port_arg max_saved_versions free_port web_server fs log = (r, w')
      ∧ io_log w' = log ++ Truncated p :: rest
      ∧ (is_Ok r = false →
         rest = [] ∧ files (disk w') !! p = Some Blank)
      ∧ (is_Ok r = true →
         ∃ d, as_dict flowsheet (canonical_flowsheet_name name) = Ok d
              ∧ rest = [StoreSaved d]
              ∧ files (disk w') !! p = Some (Saved d)).
Proof.
  intros flowsheet name save save_dir interval port_arg maxv free_port
    web_server fs log p Hloc Hexists Hwritable.
  unfold visualize.
  set (w0 := match web_server with None => _ | Some srv => _ end).
  assert (disk w0 = fs ∧ io_log w0 = log) as [Hdisk Hlog].
  { unfold w0. by destruct web_server. }
  clearbody w0.
  unfold bind at 1, lift at 1. rewrite Hloc.
  unfold bind at 1. rewrite Hdisk, Hexists. simpl andb. cbv iota.
  unfold bind at 1, try_except at 1, _handle_existing_save_path.
  rewrite Hdisk, Hexists, decide_False by done.
  unfold lift at 1. unfold persist.create. simpl disk. simpl unwritable.
  destruct (decide (path_parent p ∈ unwritable fs)) as [Hparent|Hparent].
  - eexists _, _, []. split; [reflexivity|]. simpl. rewrite Hlog.
    split; [done|]. split; [|done]. intros _. split; [done|].
    by rewrite lookup_insert_eq.
  - unfold bind at 1, try_except at 1, add_flowsheet.
    set (id_ := canonical_flowsheet_name name).
    unfold bind at 1, _register. 
    unfold bind at 1, try_except at 1.
    unfold bind at 1, update_flowsheet.
    unfold bind at 1, try_except at 1, _load_flowsheet, dsm_load, persist.add.
    simpl. rewrite lookup_insert_eq. simpl. rewrite lookup_insert_eq.
    unfold raise at 1. unfold bind at 1, lift at 1.
    destruct (as_dict flowsheet id_) as [d|e] eqn:Hser.
    + unfold _store_save, persist.save. simpl.
      rewrite decide_False by done. unfold bind, ret. simpl.
      eexists _, _, [StoreSaved d]. split; [reflexivity|]. simpl.
      rewrite Hlog, <- app_assoc. split; [done|]. split; [done|].
      intros _. exists d. split; [done|]. split; [done|].
      by rewrite lookup_insert_eq.
    + destruct e.
      all: eexists _, _, []; split; [reflexivity|]; simpl; rewrite Hlog.
      all: split; [done|]; split; [|done]; intros _; split; [done|].
      all: by rewrite lookup_insert_eq.
Qed.

(** A flowsheet whose serializer fails: [visualize] raises, and the file
    that held a document is blank. *)
Example overwrite_then_failure_loses_document :
  let '(r, w') :=
    visualize (examples.flowsheet_raising (KeyError "unit_models")) "x"
      SaveNone false None (JNum 5000) true None 100 8000 None
      examples.saved_x [] in
  r = Raise (KeyError "unit_models")
  ∧ io_log w' = [Truncated ["x.json"]]
  ∧ files (disk w') !! ["x.json"] = Some Blank.
Proof. vm_compute. repeat split. Qed.

(** * Further properties of the code *)

Import request_handler.

(** ** Query strings: [_parse_flowsheet_url] *)

Section query_strings.

Lemma count_char_app (c : ascii) (s t : string) :
  count_char c (s +:+ t) = count_char c s + count_char c t.
Proof. induction s as [|c' s IH]; simpl; [done|]. rewrite IH. lia. Qed.

Lemma split_on_length (sep : ascii) (s : string) :
  length (split_on sep s) = S (count_char sep s).
Proof.
  induction s as [|c s IH]; simpl; [done|].
  destruct (Ascii.eqb c sep); simpl; [by rewrite IH|].
  destruct (split_on sep s); simpl in *; lia.
Qed.

(** A string without the separator is one piece. *)
Lemma split_on_none (sep : ascii) (s : string) :
  count_char sep s = 0 → split_on sep s = [s].
Proof.
  induction s as [|c s IH]; simpl; [done|].
  destruct (Ascii.eqb c sep); [done|]. intros Hs. by rewrite IH.
Qed.

(** The first separator ends the first piece. *)
Lemma split_on_first (sep : ascii) (s rest : string) :
  count_char sep s = 0 →
  split_on sep (s +:+ String sep rest) = s :: split_on sep rest.
Proof.
  induction s as [|c s IH]; simpl.
  - intros _. by rewrite Ascii.eqb_refl.
  - destruct (Ascii.eqb c sep); [done|]. intros Hs. by rewrite IH.
Qed.

(** Splitting undoes joining, for items that hold no [&]. *)
Lemma split_join_query (items : list string) :
  items ≠ [] →
  Forall (λ item, count_char "&" item = 0) items →
  split_on "&" (join_query items) = items.
Proof.
  intros Hne Hitems. induction Hitems as [|item items Hitem Hitems IH];
    [done|].
  destruct items as [|item' items].
  - by apply split_on_none.
  - change (join_query (item :: item' :: items))
      with (item +:+ String "&" (join_query (item' :: items))).
    rewrite split_on_first by done. by rewrite IH.
Qed.

Lemma add_query_item_pair (queries : gmap string string)
    (name value : string) :
  count_char "=" name = 0 → count_char "=" value = 0 →
  add_query_item queries (query_pair (name, value))
  = <[name := value]> queries.
Proof.
  intros Hname Hvalue. unfold add_query_item, query_pair. simpl.
  change (name +:+ "=" +:+ value) with (name +:+ String "=" value).
  by rewrite split_on_first, split_on_none.
Qed.

(** An item that has no [=] or more than one leaves the dictionary as it
    is. *)
Lemma add_query_item_skip (queries : gmap string string) (item : string) :
  count_char "=" item ≠ 1 → add_query_item queries item = queries.
Proof.
  intros Hitem. unfold add_query_item.
  pose proof (split_on_length "=" item) as Hlen.
  destruct (split_on "=" item) as [|? [|? [|? ?]]]; simpl in Hlen;
    try done. lia.
Qed.

Lemma query_get_lookup (q : gmap string string) (key : string) :
  query_get (Some q) key = q !! key.
Proof. unfold query_get. by case_decide; subst. Qed.

(** Looking a key up in the parsed query is looking it up in the
    dictionary built from the items. *)
Lemma query_get_items (items : list string) (key : string) :
  Forall (λ item, count_char "&" item = 0) items →
  query_get (_parse_flowsheet_url (join_query items)) key
  = foldl add_query_item ∅ items !! key.
Proof.
  intros Hitems. destruct items as [|item items]; [done|].
  pose proof (split_join_query (item :: items)) as Hsplit.
  unfold _parse_flowsheet_url.
  destruct (join_query (item :: items)) as [|c query] eqn:Hjoin.
  - simpl in Hsplit. rewrite <- Hsplit by done. done.
  - rewrite query_get_lookup. by rewrite Hsplit.
Qed.

Lemma foldl_add_query_pairs (pairs : list (string * string))
    (queries : gmap string string) :
  Forall (λ pair, plain pair.1 ∧ plain pair.2) pairs →
  foldl add_query_item queries (query_pair <$> pairs)
  = foldl (λ q pair, <[pair.1 := pair.2]> q) queries pairs.
Proof.
  intros Hpairs. revert queries.
  induction Hpairs as [|[name value] pairs [[_ Hn] [_ Hv]] _ IH];
    intros queries; [done|].
  simpl. by rewrite add_query_item_pair, IH.
Qed.

Lemma foldl_insert_list_to_map (pairs : list (string * string)) :
  foldl (λ q pair, <[pair.1 := pair.2]> q) (∅ : gmap string string) pairs
  = list_to_map (reverse pairs).
Proof.
  induction pairs as [|pair pairs IH] using rev_ind; [done|].
  by rewrite foldl_app, reverse_app, IH.
Qed.

End query_strings.

(** X1: a query of [name=value] pairs joined by [&], whose names and values
    hold neither [&] nor [=], parses to the dictionary of these pairs;
    where a name comes twice the later pair wins. *)
Theorem parse_query_of_pairs :
  ∀ pairs : list (string * string),
    pairs ≠ [] →
    Forall (λ pair, plain pair.1 ∧ plain pair.2) pairs →
    _parse_flowsheet_url (join_query (query_pair <$> pairs))
    = Some (list_to_map (reverse pairs)).
Proof.
  intros pairs Hne Hpairs.
  assert (Forall (λ item, count_char "&" item = 0) (query_pair <$> pairs))
    as Hitems.
  { apply Forall_fmap. eapply Forall_impl; [exact Hpairs|].
    intros [name value] [[Hn _] [Hv _]]. unfold query_pair. simpl in *.
    rewrite !count_char_app. simpl. lia. }
  assert (query_pair <$> pairs ≠ []) as Hne' by by destruct pairs.
  pose proof (split_join_query _ Hne' Hitems) as Hsplit.
  unfold _parse_flowsheet_url.
  destruct (join_query (query_pair <$> pairs)) as [|c query] eqn:Hjoin.
  - destruct pairs as [|[name value] pairs]; [done|].
    simpl in Hsplit. injection Hsplit as Hpair _.
    apply (f_equal (count_char "=")) in Hpair. unfold query_pair in Hpair.
    rewrite !count_char_app in Hpair. simpl in Hpair. lia.
  - rewrite Hsplit, foldl_add_query_pairs by done.
    by rewrite foldl_insert_list_to_map.
Qed.

Lemma parse_query_of_pairs_witness :
  _parse_flowsheet_url
    (join_query (query_pair <$> [("id", "flash"); ("app", "old");
                                 ("id", "hda")]))
  = Some (list_to_map (reverse [("id", "flash"); ("app", "old");
                                ("id", "hda")])).
Proof.
  apply (parse_query_of_pairs
           [("id", "flash"); ("app", "old"); ("id", "hda")]).
  - discriminate.
  - repeat constructor.
Defined.

(** X2: an item of the query that is not a single [name=value] pair (it has
    no [=], or more than one) is skipped: with or without it, every key
    looks up the same. *)
Theorem malformed_query_item_skipped :
  ∀ (before after : list string) (item key : string),
    Forall (λ item, count_char "&" item = 0) (before ++ item :: after) →
    count_char "=" item ≠ 1 →
    query_get (_parse_flowsheet_url (join_query (before ++ item :: after)))
      key
    = query_get (_parse_flowsheet_url (join_query (before ++ after))) key.
Proof.
  intros before after item key Hitems Hitem.
  rewrite !query_get_items; [|..|done].
  - by rewrite !foldl_app; simpl; rewrite add_query_item_skip.
  - apply Forall_app in Hitems as [Hb Ha]. apply Forall_app. split; [done|].
    by apply Forall_cons in Ha as [_ Ha].
Qed.

Lemma malformed_query_item_skipped_witness :
  query_get (_parse_flowsheet_url
               (join_query (["id=flash"] ++ "a=b=c" :: ["app=old"]))) "id"
  = query_get (_parse_flowsheet_url
                 (join_query (["id=flash"] ++ ["app=old"]))) "id".
Proof.
  apply (malformed_query_item_skipped ["id=flash"] ["app=old"] "a=b=c" "id").
  - repeat constructor.
  - simpl. lia.
Defined.

(** ** What the server methods change *)

Section server_effects.

Lemma dsm_save_cases (id_ : string) (d : document) (dsm : DataStoreManager)
    (fs : filesystem) :
  match dsm_save id_ d dsm fs with
  | Ok (dsm', fs') =>
      dsm_load id_ dsm' fs' = Ok d
      ∧ dom dsm' = dom dsm
      ∧ unwritable fs' = unwritable fs
      ∧ ∃ store, dsm !! id_ = Some store
  | Raise e =>
      (dsm !! id_ = None ∧ e = KeyError id_)
      ∨ (∃ p msg, dsm !! id_ = Some (FileDataStore p)
                  ∧ p ∈ unwritable fs ∧ e = DatastoreError msg)
  end.
Proof.
  unfold dsm_save, dsm_load, persist.save.
  destruct (dsm !! id_) as [[p|data]|] eqn:Hstore; [| |by left].
  - case_decide; [right; eauto|].
    rewrite lookup_insert_eq. simpl. rewrite lookup_insert_eq.
    repeat split; eauto. apply dom_insert_lookup_L. eauto.
  - rewrite lookup_insert_eq. simpl.
    repeat split; eauto. apply dom_insert_lookup_L. eauto.
Qed.

Lemma save_flowsheet_cases (id_ : string) (d : document) (w : world) :
  match save_flowsheet id_ d w with
  | (Ok _, w') =>
      fst (_load_flowsheet id_ w') = Ok d
      ∧ io_log w' = io_log w ++ [StoreSaved d]
      ∧ _flowsheets (self w') = _flowsheets (self w)
      ∧ _settings_block (self w') = _settings_block (self w)
      ∧ _port (self w') = _port (self w)
      ∧ dom (_dsm (self w')) = dom (_dsm (self w))
      ∧ unwritable (disk w') = unwritable (disk w)
  | (Raise e, w') =>
      w' = w
      ∧ (∃ msg, e = ProcessingError msg)
      ∧ (_dsm (self w) !! id_ = None
         ∨ ∃ p, _dsm (self w) !! id_ = Some (FileDataStore p)
                ∧ p ∈ unwritable (disk w))
  end.
Proof.
  unfold save_flowsheet, try_except, _dsm_save, _load_flowsheet.
  pose proof (dsm_save_cases id_ d (_dsm (self w)) (disk w)) as Hsave.
  destruct (dsm_save id_ d (_dsm (self w)) (disk w)) as [[dsm' fs']|e].
  - simpl. destruct Hsave as (? & ? & ? & ?). done.
  - destruct Hsave as [[Hnone ->]|(p & msg & Hp & Hun & ->)]; simpl.
    + split; [done|]. split; [eauto|]. by left.
    + split; [done|]. split; [eauto|]. right. eauto.
Qed.


(** [update_flowsheet] as one case analysis. *)
Lemma update_flowsheet_eq (id_ : string) (w : world) :
  update_flowsheet id_ w
  = match fst (_load_flowsheet id_ w) with
    | Raise err =>
        (Raise match err with
               | KeyError _ => FlowsheetUnknown id_
               | ValueError _ => FlowsheetNotFoundInDatastore id_
               | _ => err
               end, w)
    | Ok stored =>
        match _flowsheets (self w) !! id_ with
        | None => (Raise (FlowsheetNotFoundInMemory id_), w)
        | Some obj =>
            match as_dict obj id_ with
            | Raise err =>
                (Raise match err with
                       | AttributeError _ | KeyError _ =>
                           ProcessingError
                             ("Cannot serialize flowsheet: "
                              +:+ "Error serializing flowsheet: "
                              +:+ exn_str err)
                       | ValueError _ =>
                           ProcessingError
                             ("Cannot serialize flowsheet: " +:+ exn_str err)
                       | _ => err
                       end, w)
            | Ok live =>
                let diff := {| diff_old := stored; diff_new := live |} in
                if diff_bool diff then
                  match save_flowsheet id_ (merged diff) w with
                  | (Ok _, w') => (Ok (merged diff), w')
                  | (Raise e, w') => (Raise e, w')
                  end
                else (Ok (merged diff), w)
            end
        end
    end.
Proof.
  destruct (fst (_load_flowsheet id_ w)) as [stored|err] eqn:Hload.
  - destruct (_flowsheets (self w) !! id_) as [obj|] eqn:Hobj.
    + destruct (as_dict obj id_) as [live|err] eqn:Hser.
      * rewrite (update_flowsheet_unfold id_ w stored obj live) by done.
        cbv zeta. unfold bind, ret.
        destruct (diff_bool _); simpl; [|done].
        by destruct (save_flowsheet _ _ w) as [[[]|e] w'].
      * unfold update_flowsheet.
        unfold bind at 1, try_except at 1.
        rewrite load_flowsheet_world, Hload.
        unfold bind at 1, try_except at 1, _get_flowsheet_obj, dict_getitem.
        rewrite Hobj.
        unfold bind, try_except, _serialize_flowsheet, lift, raise.
        rewrite Hser. by destruct err.
    + unfold update_flowsheet.
      unfold bind at 1, try_except at 1. rewrite load_flowsheet_world, Hload.
      unfold bind, try_except, _get_flowsheet_obj, dict_getitem.
      by rewrite Hobj.
  - unfold update_flowsheet, bind, try_except.
    rewrite load_flowsheet_world, Hload. by destruct err.
Qed.

End server_effects.

(** What a call of [update_flowsheet] leaves behind. *)
Lemma update_flowsheet_effect (id_ : string) (w : world) :
  match update_flowsheet id_ w with
  | (Ok m, w') =>
      fst (_load_flowsheet id_ w') = Ok m
      ∧ (w' = w ∨ io_log w' = io_log w ++ [StoreSaved m])
      ∧ _flowsheets (self w') = _flowsheets (self w)
      ∧ _settings_block (self w') = _settings_block (self w)
      ∧ _port (self w') = _port (self w)
      ∧ dom (_dsm (self w')) = dom (_dsm (self w))
      ∧ unwritable (disk w') = unwritable (disk w)
  | (Raise _, w') => w' = w
  end.
Proof.
  rewrite update_flowsheet_eq.
  destruct (fst (_load_flowsheet id_ w)) as [stored|err] eqn:Hload; [|done].
  destruct (_flowsheets (self w) !! id_) as [obj|]; [|done].
  destruct (as_dict obj id_) as [live|err]; [|done].
  cbv zeta.
  destruct (diff_bool _) eqn:Hdiff.
  - pose proof (save_flowsheet_cases id_
      (merged {| diff_old := stored; diff_new := live |}) w) as Hsave.
    destruct (save_flowsheet _ _ w) as [[[]|e] w'].
    + destruct Hsave as (? & ? & ? & ? & ? & ? & ?). eauto 10.
    + by destruct Hsave as (-> & _).
  - apply diff_bool_false in Hdiff as <-. rewrite merged_same. eauto 10.
Qed.

(** X3: the document [update_flowsheet] returns is the document the store
    holds after the call. *)
Theorem update_returns_stored_document :
  ∀ (id_ : string) (w w' : world) (m : document),
    update_flowsheet id_ w = (Ok m, w') →
    fst (_load_flowsheet id_ w') = Ok m.
Proof.
  intros id_ w w' m Hupdate.
  pose proof (update_flowsheet_effect id_ w) as Heffect.
  rewrite Hupdate in Heffect. apply Heffect.
Qed.

(** X4: an [update_flowsheet] that raises leaves the server, the files and
    the log of writes as they were. *)
Theorem update_failure_changes_nothing :
  ∀ (id_ : string) (w w' : world) (e : exn),
    update_flowsheet id_ w = (Raise e, w') → w' = w.
Proof.
  intros id_ w w' e Hupdate.
  pose proof (update_flowsheet_effect id_ w) as Heffect.
  by rewrite Hupdate in Heffect.
Qed.

(** X5: called with a document (a dictionary, as [update_flowsheet] passes
    it), [save_flowsheet] either saves, and then the store holds the
    document and one write is logged, or raises [ProcessingError] and
    changes nothing; it raises when the identifier has no store or the file
    of the store cannot be written. *)
Theorem save_flowsheet_saves_or_processing_error :
  ∀ (id_ : string) (d : document) (w : world),
    match save_flowsheet id_ d w with
    | (Ok _, w') =>
        fst (_load_flowsheet id_ w') = Ok d
        ∧ io_log w' = io_log w ++ [StoreSaved d]
    | (Raise e, w') =>
        w' = w
        ∧ (∃ msg, e = ProcessingError msg)
        ∧ (_dsm (self w) !! id_ = None
           ∨ ∃ p, _dsm (self w) !! id_ = Some (FileDataStore p)
                  ∧ p ∈ unwritable (disk w))
    end.
Proof.
  intros id_ d w. pose proof (save_flowsheet_cases id_ d w) as Hsave.
  destruct (save_flowsheet id_ d w) as [[[]|e] w']; [|done].
  by destruct Hsave as (? & ? & _).
Qed.

Lemma update_returns_stored_document_witness :
  fst (_load_flowsheet "fs"
         (snd (update_flowsheet "fs"
                 (examples.world_with
                    (examples.flowsheet_of examples.doc_live)
                    (Some examples.doc_stored)))))
  = Ok examples.doc_merged.
Proof.
  apply (update_returns_stored_document "fs"
           (examples.world_with (examples.flowsheet_of examples.doc_live)
              (Some examples.doc_stored))).
  vm_compute. reflexivity.
Defined.

Lemma update_failure_changes_nothing_witness :
  snd (update_flowsheet "fs"
         (examples.world_without_object (Some examples.doc_stored)))
  = examples.world_without_object (Some examples.doc_stored).
Proof.
  apply (update_failure_changes_nothing "fs"
           (examples.world_without_object (Some examples.doc_stored)) _
           (FlowsheetNotFoundInMemory "fs")).
  vm_compute. reflexivity.
Defined.

(** ** Registering a flowsheet: [add_flowsheet] *)

Section registration.

Context (name : string) (flowsheet : Flowsheet) (store : DataStore).

(** [add_flowsheet] as one case analysis. *)
Lemma add_flowsheet_eq (w : world) :
  add_flowsheet name flowsheet store w
  = let id_ := canonical_flowsheet_name name in
    match update_flowsheet id_ (snd (_register id_ flowsheet store w)) with
    | (Ok _, w') => (Ok id_, w')
    | (Raise (FlowsheetNotFoundInDatastore _), w') =>
        match as_dict flowsheet id_ with
        | Ok fs_dict =>
            match _store_save id_ store fs_dict w' with
            | (Ok _, w'') => (Ok id_, w'')
            | (Raise e, w'') => (Raise e, w'')
            end
        | Raise e => (Raise e, w')
        end
    | (Raise e, w') => (Raise e, w')
    end.
Proof.
  unfold add_flowsheet. cbv zeta. unfold bind at 1. simpl.
  unfold bind at 1, try_except at 1. unfold bind at 1.
  destruct (update_flowsheet _ _) as [[m|e] w']; [done|].
  destruct e; try done.
  unfold bind, lift, ret. destruct (as_dict flowsheet _); [|done].
  by destruct (_store_save _ _ _ _) as [[[]|e] w''].
Qed.

(** The store of a flowsheet that was just registered is the one given. *)
Lemma registered_load (w : world) :
  fst (_load_flowsheet (canonical_flowsheet_name name)
         (snd (_register (canonical_flowsheet_name name) flowsheet store w)))
  = persist.load store (disk w).
Proof.
  unfold _load_flowsheet, dsm_load, _register, persist.add. simpl.
  by rewrite lookup_insert_eq.
Qed.

Lemma never_written_load (fs : filesystem) :
  never_written store fs = true →
  ∃ msg, persist.load store fs = Raise (ValueError msg).
Proof.
  unfold never_written, persist.load.
  destruct store as [p|[d|]]; [|done|eauto].
  destruct (files fs !! p) as [[| |]|]; by eauto.
Qed.

(** With a store that holds no document, the update inside
    [add_flowsheet] reports that and changes nothing. *)
Lemma registered_update_not_found (w : world) :
  never_written store (disk w) = true →
  update_flowsheet (canonical_flowsheet_name name)
    (snd (_register (canonical_flowsheet_name name) flowsheet store w))
  = (Raise (FlowsheetNotFoundInDatastore (canonical_flowsheet_name name)),
     snd (_register (canonical_flowsheet_name name) flowsheet store w)).
Proof.
  intros [msg Hload]%never_written_load.
  by rewrite update_flowsheet_eq, registered_load, Hload.
Qed.

End registration.

(** X6: [add_flowsheet] registers the flowsheet and its store under the
    canonical name before anything can fail, so they stay registered even
    when the call raises; when it returns, it returns the canonical name. *)
Theorem add_flowsheet_registers_canonical_name :
  ∀ (name : string) (flowsheet : Flowsheet) (store : DataStore) (w : world),
    let (r, w') := add_flowsheet name flowsheet store w in
    _flowsheets (self w') !! canonical_flowsheet_name name = Some flowsheet
    ∧ canonical_flowsheet_name name ∈ dom (_dsm (self w'))
    ∧ match r with
      | Ok id_ => id_ = canonical_flowsheet_name name
      | Raise _ => True
      end.
Proof.
  intros name flowsheet store w. rewrite add_flowsheet_eq. cbv zeta.
  set (id_ := canonical_flowsheet_name name).
  set (w1 := snd (_register id_ flowsheet store w)).
  assert (_flowsheets (self w1) !! id_ = Some flowsheet
          ∧ id_ ∈ dom (_dsm (self w1))) as [Hfl Hdsm].
  { unfold w1, _register, persist.add. simpl. rewrite lookup_insert_eq.
    split; [done|]. apply elem_of_dom. rewrite lookup_insert_eq. eauto. }
  pose proof (update_flowsheet_effect id_ w1) as Heffect.
  destruct (update_flowsheet id_ w1) as [[m|e] w'].
  - destruct Heffect as (_ & _ & -> & _ & _ & -> & _). done.
  - subst w'.
    destruct e; try (by repeat split).
    destruct (as_dict flowsheet id_) as [d|e']; [|by repeat split].
    unfold _store_save.
    destruct (persist.save store d (disk w1)) as [[store' fs']|e'];
      [|by repeat split].
    simpl. split; [done|]. split; [|done].
    apply elem_of_dom. rewrite lookup_insert_eq. eauto.
Qed.

(** X7: for a store that holds no document yet, [add_flowsheet] makes the
    first save: it serializes the flowsheet, saves that document once, and
    the store then holds it. *)
Theorem add_flowsheet_first_save :
  ∀ (name : string) (flowsheet : Flowsheet) (store : DataStore) (w : world)
    (live : document),
    never_written store (disk w) = true →
    as_dict flowsheet (canonical_flowsheet_name name) = Ok live →
    (∀ p, store = FileDataStore p → p ∉ unwritable (disk w)) →
    ∃ w',
      add_flowsheet name flowsheet store w
      = (Ok (canonical_flowsheet_name name), w')
      ∧ fst (_load_flowsheet (canonical_flowsheet_name name) w') = Ok live
      ∧ io_log w' = io_log w ++ [StoreSaved live].
Proof.
  intros name flowsheet store w live Hnever Hser Hwritable.
  rewrite add_flowsheet_eq. cbv zeta.
  rewrite registered_update_not_found, Hser by done.
  unfold _store_save, persist.save, _load_flowsheet, dsm_load.
  destruct store as [p|data]; simpl.
  - rewrite decide_False by by apply Hwritable.
    eexists. split; [reflexivity|]. simpl.
    rewrite lookup_insert_eq. simpl. by rewrite lookup_insert_eq.
  - eexists. split; [reflexivity|]. simpl. by rewrite lookup_insert_eq.
Qed.

Lemma add_flowsheet_first_save_witness :
  ∃ w',
    add_flowsheet "my flowsheet" (examples.flowsheet_of examples.doc_live)
      (FileDataStore ["my-flowsheet.json"])
      (examples.world_on examples.no_files)
    = (Ok (canonical_flowsheet_name "my flowsheet"), w')
    ∧ fst (_load_flowsheet (canonical_flowsheet_name "my flowsheet") w')
      = Ok examples.doc_live
    ∧ io_log w' = [] ++ [StoreSaved examples.doc_live].
Proof.
  apply (add_flowsheet_first_save "my flowsheet"
           (examples.flowsheet_of examples.doc_live)
           (FileDataStore ["my-flowsheet.json"])
           (examples.world_on examples.no_files) examples.doc_live).
  - reflexivity.
  - reflexivity.
  - intros p _. apply not_elem_of_empty.
Defined.

(** X8: for a store that holds no document yet, an exception of the
    serializer leaves [add_flowsheet] as it is, not as a [ProcessingError];
    nothing is saved, and the flowsheet stays registered. *)
Theorem add_flowsheet_first_save_raises_unwrapped :
  ∀ (name : string) (flowsheet : Flowsheet) (store : DataStore) (w : world)
    (e : exn),
    never_written store (disk w) = true →
    as_dict flowsheet (canonical_flowsheet_name name) = Raise e →
    add_flowsheet name flowsheet store w
    = (Raise e,
       snd (_register (canonical_flowsheet_name name) flowsheet store w))
    ∧ disk (snd (add_flowsheet name flowsheet store w)) = disk w
    ∧ io_log (snd (add_flowsheet name flowsheet store w)) = io_log w.
Proof.
  intros name flowsheet store w e Hnever Hser.
  rewrite add_flowsheet_eq. cbv zeta.
  by rewrite registered_update_not_found, Hser.
Qed.

Lemma add_flowsheet_first_save_raises_unwrapped_witness :
  add_flowsheet "fs" (examples.flowsheet_raising (AttributeError "component"))
    (MemoryDataStore None) (examples.world_on examples.no_files)
  = (Raise (AttributeError "component"),
     snd (_register (canonical_flowsheet_name "fs")
            (examples.flowsheet_raising (AttributeError "component"))
            (MemoryDataStore None) (examples.world_on examples.no_files)))
  ∧ disk (snd (add_flowsheet "fs"
                 (examples.flowsheet_raising (AttributeError "component"))
                 (MemoryDataStore None)
                 (examples.world_on examples.no_files)))
    = disk (examples.world_on examples.no_files)
  ∧ io_log (snd (add_flowsheet "fs"
                   (examples.flowsheet_raising (AttributeError "component"))
                   (MemoryDataStore None)
                   (examples.world_on examples.no_files)))
    = io_log (examples.world_on examples.no_files).
Proof.
  apply (add_flowsheet_first_save_raises_unwrapped "fs"
           (examples.flowsheet_raising (AttributeError "component"))
           (MemoryDataStore None) (examples.world_on examples.no_files)
           (AttributeError "component")); reflexivity.
Defined.

(** ** [GET] requests: [do_GET] and [_get_fs] *)

Section get_requests.

Lemma split_on_one (sep : ascii) (s piece : string) :
  split_on sep s = [piece] → s = piece.
Proof.
  revert piece. induction s as [|c s IH]; intros piece; simpl.
  - by intros [= <-].
  - destruct (Ascii.eqb c sep).
    + intros [= _ Hrest]. pose proof (split_on_length sep s) as Hlen.
      rewrite Hrest in Hlen. done.
    + pose proof (split_on_length sep s) as Hlen.
      destruct (split_on sep s) as [|piece' pieces]; [done|].
      intros [= <- ->]. by rewrite (IH piece').
Qed.

(** Two pieces are what stands before and after the one separator. *)
Lemma split_on_two (sep : ascii) (s name value : string) :
  split_on sep s = [name; value] → s = name +:+ String sep value.
Proof.
  revert name. induction s as [|c s IH]; intros name; simpl; [done|].
  destruct (Ascii.eqb c sep) eqn:Hc.
  - intros [= <- Hrest]. apply Ascii.eqb_eq in Hc as ->.
    by rewrite (split_on_one _ _ _ Hrest).
  - pose proof (split_on_length sep s) as Hlen.
    destruct (split_on sep s) as [|piece pieces]; [done|].
    intros [= <- ->]. simpl. by rewrite (IH piece).
Qed.

(** Items none of which is a pair for [key] give a dictionary without
    [key]. *)
Lemma foldl_add_query_item_None (items : list string) (key : string)
    (queries : gmap string string) :
  queries !! key = None →
  Forall (λ item, ∀ value, count_char "=" value = 0 →
                           item ≠ key +:+ String "=" value) items →
  foldl add_query_item queries items !! key = None.
Proof.
  intros Hq Hitems. revert queries Hq.
  induction Hitems as [|item items Hitem _ IH]; intros queries Hq; [done|].
  simpl. apply IH. unfold add_query_item.
  pose proof (split_on_length "=" item) as Hlen.
  destruct (split_on "=" item) as [|name [|value [|? ?]]] eqn:Hsplit;
    try done.
  apply split_on_two in Hsplit as ->.
  rewrite count_char_app in Hlen. simpl in Hlen.
  rewrite lookup_insert_ne; [done|]. intros ->.
  eapply (Hitem value); [lia|done].
Qed.

(** The query [id=i] names [i]. *)
Lemma query_get_id (i : string) :
  plain i →
  query_get (_parse_flowsheet_url (query_pair ("id", i))) "id" = Some i.
Proof.
  intros [Hamp Heq].
  change (query_pair ("id", i)) with (join_query [query_pair ("id", i)]).
  rewrite query_get_items.
  - simpl. rewrite add_query_item_pair by done. apply lookup_insert_eq.
  - constructor; [|done]. unfold query_pair. simpl. exact Hamp.
Qed.

Lemma do_GET_fs (i : string) (w : world) :
  plain i → do_GET "/fs" (query_pair ("id", i)) w = _get_fs i w.
Proof. intros Hi. unfold do_GET. cbv zeta. by rewrite query_get_id. Qed.

End get_requests.

(** X9: a [GET /fs?id=i] for an identifier that was never registered is
    answered 404; for a registered identifier whose store holds no document,
    or whose live object is missing, it is answered 500.  None of these
    requests changes the server or the files. *)
Theorem get_fs_error_status :
  ∀ (i : string) (w : world),
    plain i →
    (_dsm (self w) !! i = None →
     ∃ msg, do_GET "/fs" (query_pair ("id", i)) w = (SendError 404 msg, w))
    ∧ (∀ store,
         _dsm (self w) !! i = Some store →
         never_written store (disk w) = true →
         ∃ msg,
           do_GET "/fs" (query_pair ("id", i)) w = (SendError 500 msg, w))
    ∧ (∀ stored,
         fst (_load_flowsheet i w) = Ok stored →
         _flowsheets (self w) !! i = None →
         ∃ msg,
           do_GET "/fs" (query_pair ("id", i)) w = (SendError 500 msg, w)).
Proof.
  intros i w Hi. rewrite do_GET_fs by done.
  unfold _get_fs. rewrite update_flowsheet_eq. repeat split.
  - intros Hdsm. unfold _load_flowsheet, dsm_load. rewrite Hdsm. simpl.
    eauto.
  - intros store Hdsm [msg Hload]%never_written_load.
    unfold _load_flowsheet, dsm_load. rewrite Hdsm. simpl. rewrite Hload.
    eauto.
  - intros stored -> ->. eauto.
Qed.

Lemma get_fs_error_status_witness :
  (∃ msg,
     do_GET "/fs" (query_pair ("id", "other"))
       (examples.world_with (examples.flowsheet_of examples.doc_live) None)
     = (SendError 404 msg,
        examples.world_with (examples.flowsheet_of examples.doc_live) None))
  ∧ (∃ msg,
       do_GET "/fs" (query_pair ("id", "fs"))
         (examples.world_with (examples.flowsheet_of examples.doc_live) None)
       = (SendError 500 msg,
          examples.world_with (examples.flowsheet_of examples.doc_live)
            None))
  ∧ (∃ msg,
       do_GET "/fs" (query_pair ("id", "fs"))
         (examples.world_without_object (Some examples.doc_stored))
       = (SendError 500 msg,
          examples.world_without_object (Some examples.doc_stored))).
Proof.
  split; [|split].
  - apply (get_fs_error_status "other"
             (examples.world_with (examples.flowsheet_of examples.doc_live)
                None)); [by split|reflexivity].
  - apply (get_fs_error_status "fs"
             (examples.world_with (examples.flowsheet_of examples.doc_live)
                None)) with (store := MemoryDataStore None);
      [by split|reflexivity|reflexivity].
  - apply (get_fs_error_status "fs"
             (examples.world_without_object (Some examples.doc_stored)))
      with (stored := examples.doc_stored);
      [by split|reflexivity|reflexivity].
Defined.

(** X10: a [GET] for [/app] or [/fs] whose query has no item [id=...] is
    answered 400 with the message that names the parameter and the path,
    and changes nothing; items without [=], or with two, do not count. *)
Theorem get_without_id_is_bad_request :
  ∀ (path : string) (items : list string) (w : world),
    path = "/app" ∨ path = "/fs" →
    Forall (λ item, count_char "&" item = 0) items →
    Forall (λ item, ∀ value, count_char "=" value = 0 →
                             item ≠ "id" +:+ String "=" value) items →
    do_GET path (join_query items) w
    = (SendError 400
         ("Query parameter 'id' is required for '" +:+ path +:+ "'"), w).
Proof.
  intros path items w Hpath Hitems Hnoid. unfold do_GET. cbv zeta.
  rewrite query_get_items by done.
  rewrite foldl_add_query_item_None by done.
  by destruct Hpath as [-> | ->].
Qed.

Lemma get_without_id_is_bad_request_witness :
  do_GET "/fs" (join_query ["id"; "id=a=b"; "name=fs"])
    (examples.world_with (examples.flowsheet_of examples.doc_live) None)
  = (SendError 400 ("Query parameter 'id' is required for '" +:+ "/fs" +:+ "'"),
     examples.world_with (examples.flowsheet_of examples.doc_live) None).
Proof.
  apply (get_without_id_is_bad_request "/fs" ["id"; "id=a=b"; "name=fs"]).
  - by right.
  - repeat constructor.
  - repeat constructor; intros value Hcount Hvalue;
      first [discriminate Hvalue
            |apply (f_equal (count_char "=")) in Hvalue; simpl in Hvalue;
             rewrite Hcount in Hvalue; discriminate Hvalue].
Defined.

(** ** More on diagnostics requests *)

(** X11: [_put_diagnostic] answers 200 only for a method of the toolbox that
    ran without raising: the events are then the call of that method and the
    one response, which carries what the method wrote. *)
Theorem diagnostics_ok_only_after_run :
  ∀ (request_data : pyresult json) (w : world) (body : json),
    Response 200 body ∈ _put_diagnostic request_data w →
    ∃ rd id_ fs dt name out,
      request_data = Ok rd
      ∧ json_get rd "function_name" (JStr "") = Ok (JStr name)
      ∧ json_get rd "id" (JStr "") = Ok (JStr id_)
      ∧ _flowsheets (self w) !! id_ = Some fs
      ∧ diagnostics_toolbox fs = Ok dt
      ∧ dt !! name = Some (Method (Ok out))
      ∧ _put_diagnostic request_data w
        = [Invoked name;
           Response 200
             (JObj {[ "diagnostics_runner_result" := JStr out ]})].
Proof.
  intros request_data w body Hin.
  assert (∀ evs : list handler_event,
            Forall (λ ev, ∀ b, ev ≠ Response 200 b) evs →
            Response 200 body ∈ evs → False) as Hnone.
  { intros evs Hevs Hbody. rewrite Forall_forall in Hevs.
    by eapply Hevs. }
  pose proof Hin as Hin'.
  unfold _put_diagnostic, hbind, hlift, _run_function, _write_json, hret
    in Hin'.
  destruct request_data as [rd|e];
    [|exfalso; revert Hin'; apply Hnone; by repeat constructor].
  destruct (json_get rd "function_name" (JStr "")) as [fn|e] eqn:Hfn;
    [|exfalso; revert Hin'; apply Hnone; by repeat constructor].
  destruct (json_get rd "id" (JStr "")) as [i|e] eqn:Hid;
    [|exfalso; revert Hin'; apply Hnone; by repeat constructor].
  destruct (_flowsheet_of_json i w) as [fs|e] eqn:Hfs;
    [|exfalso; revert Hin'; apply Hnone; by repeat constructor].
  destruct (diagnostics_toolbox fs) as [dt|e] eqn:Hdt;
    [|exfalso; revert Hin'; apply Hnone; by repeat constructor].
  destruct fn as [| | |name| |];
    try (exfalso; revert Hin'; apply Hnone; by repeat constructor).
  destruct i as [| | |id_| |]; try discriminate Hfs.
  unfold _flowsheet_of_json, _get_flowsheet_obj, dict_getitem in Hfs.
  simpl in Hfs.
  destruct (_flowsheets (self w) !! id_) as [fs'|] eqn:Hlook;
    [|discriminate Hfs].
  injection Hfs as ->.
  rewrite (put_diagnostic_events rd w name id_ fs dt) by done.
  rewrite (put_diagnostic_events rd w name id_ fs dt) in Hin by done.
  cbv zeta in *.
  clear Hin'.
  destruct (dt !! name) as [[[out|e]|v]|] eqn:Hattr;
    try (exfalso; revert Hin; apply Hnone; by repeat constructor).
  eexists rd, id_, fs, dt, name, out. by repeat split.
Qed.

Lemma diagnostics_ok_only_after_run_witness :
  ∃ rd id_ fs dt name out,
    Ok (examples.request "report_structural_issues") = Ok rd
    ∧ json_get rd "function_name" (JStr "") = Ok (JStr name)
    ∧ json_get rd "id" (JStr "") = Ok (JStr id_)
    ∧ _flowsheets
        (self (examples.world_with
                 (examples.flowsheet_of examples.doc_live) None)) !! id_
      = Some fs
    ∧ diagnostics_toolbox fs = Ok dt
    ∧ dt !! name = Some (Method (Ok out))
    ∧ _put_diagnostic (Ok (examples.request "report_structural_issues"))
        (examples.world_with (examples.flowsheet_of examples.doc_live) None)
      = [Invoked name;
         Response 200 (JObj {[ "diagnostics_runner_result" := JStr out ]})].
Proof.
  apply (diagnostics_ok_only_after_run
           (Ok (examples.request "report_structural_issues"))
           (examples.world_with (examples.flowsheet_of examples.doc_live)
              None)
           (JObj {[ "diagnostics_runner_result"
                      := JStr "No issues found" ]})).
  vm_compute. apply list_elem_of_further, list_elem_of_here.
Defined.

(** X12: a request for a function the toolbox does not have is answered
    twice: after the response "Unknown function" the handler goes on, fails
    on [output_stream], which was never assigned, and writes a second
    response with status 500. *)
Theorem unknown_function_answered_twice :
  ∀ (rd : json) (w : world) (name id_ : string) (fs : Flowsheet)
    (dt : gmap string attribute),
    json_get rd "function_name" (JStr "") = Ok (JStr name) →
    json_get rd "id" (JStr "") = Ok (JStr id_) →
    _flowsheets (self w) !! id_ = Some fs →
    diagnostics_toolbox fs = Ok dt →
    dt !! name = None →
    _put_diagnostic (Ok rd) w
    = [Response 500
         (JObj {[ "error" := JStr ("Unknown function: " +:+ name) ]});
       Response 500
         (JObj {[ "error" :=
            JStr ("Error running diagnostics: "
                  +:+ exn_str (UnboundLocalError "output_stream")
                  +:+ ", please check your flowsheet!") ]})].
Proof.
  intros rd w name id_ fs dt Hfn Hid Hfs Hdt Hattr.
  rewrite (put_diagnostic_events rd w name id_ fs dt) by done.
  cbv zeta. by rewrite Hattr.
Qed.

Lemma unknown_function_answered_twice_witness :
  _put_diagnostic (Ok (examples.request "shutdown"))
    (examples.world_with (examples.flowsheet_of examples.doc_live) None)
  = [Response 500
       (JObj {[ "error" := JStr ("Unknown function: " +:+ "shutdown") ]});
     Response 500
       (JObj {[ "error" :=
          JStr ("Error running diagnostics: "
                +:+ exn_str (UnboundLocalError "output_stream")
                +:+ ", please check your flowsheet!") ]})].
Proof.
  apply (unknown_function_answered_twice (examples.request "shutdown")
           (examples.world_with (examples.flowsheet_of examples.doc_live)
              None)
           "shutdown" "fs" (examples.flowsheet_of examples.doc_live)
           examples.toolbox); reflexivity.
Defined.

(** X13: every diagnostics request is answered, whatever goes wrong on the
    way (a body that does not parse, an unknown flowsheet, a toolbox that
    cannot be built, a method that raises): the last event is a response,
    with status 200 or 500, and at most one method is called. *)
Theorem diagnostics_request_always_answered :
  ∀ (request_data : pyresult json) (w : world),
    (∃ code body,
       last (_put_diagnostic request_data w) = Some (Response code body)
       ∧ (code = 200 ∨ code = 500)%Z)
    ∧ (∀ a b, Invoked a ∈ _put_diagnostic request_data w →
              Invoked b ∈ _put_diagnostic request_data w → a = b).
Proof.
  intros request_data w. split.
  - unfold _put_diagnostic, hbind, hlift, _run_function, _write_json, hret.
    destruct request_data as [rd|e]; [|simpl; eauto].
    destruct (json_get rd "function_name" (JStr "")) as [fn|e];
      [|simpl; eauto].
    destruct (json_get rd "id" (JStr "")) as [i|e]; [|simpl; eauto].
    destruct (_flowsheet_of_json i w) as [fs|e]; [|simpl; eauto].
    destruct (diagnostics_toolbox fs) as [dt|e]; [|simpl; eauto].
    destruct fn as [| | |name| |]; try (simpl; by eauto).
    destruct (dt !! name) as [[[out|e]|v]|]; simpl; eauto.
  - intros a b Ha Hb.
    apply put_diagnostic_invokes_attribute in Ha
      as (rd & _ & _ & _ & _ & -> & Ha & _).
    apply put_diagnostic_invokes_attribute in Hb
      as (rd' & _ & _ & _ & _ & [= <-] & Hb & _).
    congruence.
Qed.

Lemma diagnostics_request_always_answered_witness :
  (∃ code body,
     last (_put_diagnostic (Ok (examples.request "report_structural_issues"))
             (examples.world_with
                (examples.flowsheet_of examples.doc_live) None))
     = Some (Response code body)
     ∧ (code = 200 ∨ code = 500)%Z)
  ∧ "report_structural_issues" = "report_structural_issues".
Proof.
  split.
  - apply (diagnostics_request_always_answered
             (Ok (examples.request "report_structural_issues"))
             (examples.world_with (examples.flowsheet_of examples.doc_live)
                None)).
  - apply (diagnostics_request_always_answered
             (Ok (examples.request "report_structural_issues"))
             (examples.world_with (examples.flowsheet_of examples.doc_live)
                None));
      vm_compute; apply list_elem_of_here.
Defined.

(** ** More on save paths *)

Section version_probe.

Context (fs : filesystem) (save_dir : Path) (name : string)
        (max_versions : Z).

(** Where the loop can end: at its start, or at a numbered file after a run
    of files that exist; and it ends only at a free path or at the
    ceiling. *)
Lemma version_loop_end (n : nat) (counter : Z) (save_path : Path)
    (counter' : Z) (save_path' : Path) :
  Z.to_nat (max_versions - counter) = n →
  version_loop fs save_dir name max_versions counter save_path
  = (counter', save_path') →
  (path_exists save_path' fs = false ∨ max_versions ≤ counter')%Z
  ∧ ((counter' = counter ∧ save_path' = save_path)
     ∨ ((counter < counter' ≤ max_versions)%Z
        ∧ save_path' = versioned save_dir name counter'
        ∧ path_exists save_path fs = true
        ∧ ∀ i, (counter < i < counter')%Z →
               path_exists (versioned save_dir name i) fs = true)).
Proof.
  revert counter save_path.
  induction n as [|n IH]; intros counter save_path Hn.
  - rewrite version_loop_stop.
    + intros [= <- <-]. split; [right; lia|by left].
    + apply andb_false_iff. right. apply Z.ltb_ge. lia.
  - destruct (path_exists save_path fs) eqn:Hexists.
    + rewrite version_loop_step by (done || lia).
      intros Hloop. apply IH in Hloop as [Hend Hrun]; [|lia].
      split; [done|]. right.
      destruct Hrun as [[-> ->]|(Hle & -> & Hnext & Hbelow)].
      * repeat split; try done; try lia; intros i Hi; lia.
      * repeat split; try done; try lia; intros i Hi.
        destruct (decide (i = counter + 1)%Z) as [->|]; [done|].
        apply Hbelow. lia.
    + rewrite version_loop_stop by by rewrite Hexists.
      intros [= <- <-]. split; [by left|by left].
Qed.

End version_probe.

(** X14: without [overwrite] and with a ceiling that is not negative, a
    path that [_handle_existing_save_path] returns never exists: it is the
    save path itself if that is free, and else the path
    [save_dir / f"{name}-{k}.json"] with the least [k] for which it is
    free, all the paths below it being taken; nothing is written. *)
Theorem returned_save_path_is_free :
  ∀ (name : string) (save_path : Path) (max_versions : Z) (w w' : world)
    (chosen : Path),
    (0 ≤ max_versions)%Z →
    _handle_existing_save_path name save_path max_versions false w
    = (Ok chosen, w') →
    w' = w
    ∧ path_exists chosen (disk w) = false
    ∧ (chosen = save_path
       ∨ ∃ k, (1 ≤ k < spec.effective_ceiling max_versions)%Z
              ∧ chosen = versioned (path_parent save_path) name k
              ∧ path_exists save_path (disk w) = true
              ∧ ∀ i, (1 ≤ i < k)%Z →
                     path_exists (versioned (path_parent save_path) name i)
                       (disk w) = true).
Proof.
  intros name save_path max_versions w w' chosen Hmax.
  unfold _handle_existing_save_path.
  destruct (path_exists save_path (disk w)) eqn:Hexists; simpl negb;
    cbv iota; [|intros [= <- <-]; by eauto].
  fold (spec.effective_ceiling max_versions).
  assert (1 ≤ spec.effective_ceiling max_versions)%Z as Hceiling.
  { unfold spec.effective_ceiling.
    destruct (max_versions =? 0)%Z eqn:Hzero; [done|].
    apply Z.eqb_neq in Hzero. lia. }
  destruct (version_loop _ _ _ _ _ _) as [counter' save_path'] eqn:Hloop.
  apply (version_loop_end _ _ _ _ _ 0 save_path _ _ eq_refl) in Hloop
    as [Hend Hrun].
  destruct (counter' =? spec.effective_ceiling max_versions)%Z eqn:Hat;
    [done|].
  apply Z.eqb_neq in Hat. intros [= <- <-]. split; [done|].
  destruct Hrun as [[-> ->]|(Hle & -> & _ & Hbelow)].
  - destruct Hend as [Hfree|Hle]; [congruence|lia].
  - destruct Hend as [Hfree|Hle']; [|lia].
    split; [done|]. right. exists counter'.
    repeat split; try done; try lia. intros i Hi. apply Hbelow. lia.
Qed.

Lemma returned_save_path_is_free_witness :
  examples.world_on (examples.directory ["x.json"; "x-1.json"])
  = examples.world_on (examples.directory ["x.json"; "x-1.json"])
  ∧ path_exists ["x-2.json"]
      (disk (examples.world_on (examples.directory ["x.json"; "x-1.json"])))
    = false
  ∧ (["x-2.json"] = ["x.json"]
     ∨ ∃ k, (1 ≤ k < spec.effective_ceiling 100)%Z
            ∧ ["x-2.json"] = versioned (path_parent ["x.json"]) "x" k
            ∧ path_exists ["x.json"]
                (disk (examples.world_on
                         (examples.directory ["x.json"; "x-1.json"])))
              = true
            ∧ ∀ i, (1 ≤ i < k)%Z →
                   path_exists (versioned (path_parent ["x.json"]) "x" i)
                     (disk (examples.world_on
                              (examples.directory ["x.json"; "x-1.json"])))
                   = true).
Proof.
  apply (returned_save_path_is_free "x" ["x.json"] 100
           (examples.world_on (examples.directory ["x.json"; "x-1.json"]))).
  - lia.
  - vm_compute. reflexivity.
Defined.

(** X15: without [overwrite], with a ceiling that is not negative and a
    save path that exists, [_handle_existing_save_path] raises
    [TooManySavedVersions] exactly when all the numbered paths
    [save_dir / f"{name}-{i}.json"] with [i] below the ceiling in effect
    exist; the path numbered with the ceiling plays no part. *)
Theorem exhausted_exactly_when_all_below_ceiling_exist :
  ∀ (name : string) (save_path : Path) (max_versions : Z) (w : world),
    (0 ≤ max_versions)%Z →
    path_exists save_path (disk w) = true →
    (∃ why,
       fst (_handle_existing_save_path name save_path max_versions false w)
       = Raise (TooManySavedVersions why))
    ↔ (∀ i, (1 ≤ i < spec.effective_ceiling max_versions)%Z →
            path_exists (versioned (path_parent save_path) name i) (disk w)
            = true).
Proof.
  intros name save_path max_versions w Hmax Hexists.
  assert (1 ≤ spec.effective_ceiling max_versions)%Z as Hceiling.
  { unfold spec.effective_ceiling.
    destruct (max_versions =? 0)%Z eqn:Hzero; [done|].
    apply Z.eqb_neq in Hzero. lia. }
  split.
  - intros [why Hraise]. revert Hraise.
    unfold _handle_existing_save_path. rewrite Hexists. simpl negb.
    cbv iota. fold (spec.effective_ceiling max_versions).
    destruct (version_loop _ _ _ _ _ _) as [counter' save_path'] eqn:Hloop.
    apply (version_loop_end _ _ _ _ _ 0 save_path _ _ eq_refl) in Hloop
      as [_ Hrun].
    destruct (counter' =? spec.effective_ceiling max_versions)%Z eqn:Hat;
      [|done].
    apply Z.eqb_eq in Hat. intros _ i Hi.
    destruct Hrun as [[-> ->]|(_ & _ & _ & Hbelow)]; [lia|].
    apply Hbelow. lia.
  - intros Hbelow.
    rewrite (handle_existing_save_path_exhausted name save_path max_versions
               w) by done.
    eauto.
Qed.

Lemma exhausted_exactly_when_all_below_ceiling_exist_witness :
  (∃ why,
     fst (_handle_existing_save_path "x" ["x.json"] 2 false
            (examples.world_on (examples.directory ["x.json"; "x-1.json"])))
     = Raise (TooManySavedVersions why))
  ↔ (∀ i, (1 ≤ i < spec.effective_ceiling 2)%Z →
          path_exists (versioned (path_parent ["x.json"]) "x" i)
            (disk (examples.world_on
                     (examples.directory ["x.json"; "x-1.json"])))
          = true).
Proof.
  apply (exhausted_exactly_when_all_below_ceiling_exist "x" ["x.json"] 2
           (examples.world_on (examples.directory ["x.json"; "x-1.json"]))).
  - lia.
  - reflexivity.
Defined.

(** X16: with a negative ceiling and without [overwrite],
    [_handle_existing_save_path] hands back a save path that exists: the
    loop does not run and the counter, zero, is not the ceiling. *)
Theorem negative_ceiling_returns_existing_path :
  ∀ (name : string) (save_path : Path) (max_versions : Z) (w : world),
    (max_versions < 0)%Z →
    path_exists save_path (disk w) = true →
    _handle_existing_save_path name save_path max_versions false w
    = (Ok save_path, w).
Proof.
  intros name save_path max_versions w Hmax Hexists.
  unfold _handle_existing_save_path. rewrite Hexists. simpl negb. cbv iota.
  rewrite (proj2 (Z.eqb_neq max_versions 0)) by lia.
  rewrite version_loop_stop.
  - by rewrite (proj2 (Z.eqb_neq 0 max_versions)) by lia.
  - apply andb_false_iff. right. apply Z.ltb_ge. lia.
Qed.

Lemma negative_ceiling_returns_existing_path_witness :
  _handle_existing_save_path "x" ["x.json"] (-1) false
    (examples.world_on (examples.directory ["x.json"]))
  = (Ok ["x.json"], examples.world_on (examples.directory ["x.json"])).
Proof.
  apply (negative_ceiling_returns_existing_path "x" ["x.json"] (-1)
           (examples.world_on (examples.directory ["x.json"])));
    [lia|reflexivity].
Defined.

(** X17: with [overwrite], [_handle_existing_save_path] never numbers the
    file and never looks at the ceiling: it returns the save path itself or
    fails to open it.  A file that existed is blank afterwards and the
    truncation is the one write; a path that did not exist is returned with
    nothing written. *)
Theorem overwrite_reuses_the_save_path :
  ∀ (name : string) (save_path : Path) (max_versions : Z) (w : world),
    match _handle_existing_save_path name save_path max_versions true w with
    | (Ok chosen, w') =>
        chosen = save_path
        ∧ if path_exists save_path (disk w)
          then files (disk w') !! save_path = Some Blank
               ∧ io_log w' = io_log w ++ [Truncated save_path]
          else w' = w
    | (Raise e, w') =>
        w' = w ∧ save_path ∈ unwritable (disk w)
        ∧ ∃ msg, e = OSError msg
    end.
Proof.
  intros name save_path max_versions w. unfold _handle_existing_save_path.
  destruct (path_exists save_path (disk w)); [|done].
  case_decide; [by eauto|]. simpl. by rewrite lookup_insert_eq.
Qed.

(** ** More on [visualize] *)

Section visualize_effects.

(** [add_flowsheet] changes neither the settings nor the port. *)
Lemma add_flowsheet_settings (name : string) (flowsheet : Flowsheet)
    (store : DataStore) (w : world) :
  _settings_block (self (snd (add_flowsheet name flowsheet store w)))
  = _settings_block (self w).
Proof.
  rewrite add_flowsheet_eq. cbv zeta.
  set (id_ := canonical_flowsheet_name name).
  set (w1 := snd (_register id_ flowsheet store w)).
  change (_settings_block (self w)) with (_settings_block (self w1)).
  pose proof (update_flowsheet_effect id_ w1) as Heffect.
  destruct (update_flowsheet id_ w1) as [[m|e] w'].
  - simpl. by destruct Heffect as (_ & _ & _ & ? & _).
  - subst w'. destruct e; try done.
    destruct (as_dict flowsheet id_) as [d|e']; [|done].
    unfold _store_save.
    by destruct (persist.save store d (disk w1)) as [[store' fs']|e'].
Qed.

Lemma handle_existing_save_path_self (name : string) (save_path : Path)
    (max_versions : Z) (overwrite : bool) (w : world) :
  self (snd (_handle_existing_save_path name save_path max_versions
               overwrite w)) = self w.
Proof.
  unfold _handle_existing_save_path.
  destruct overwrite.
  - destruct (path_exists save_path (disk w)); [|done]. by case_decide.
  - destruct (negb _); [done|].
    destruct (version_loop _ _ _ _ _ _) as [c p]. by destruct (_ =? _)%Z.
Qed.

(** The part of [visualize] after the server is there. *)
Lemma visualize_settings (flowsheet : Flowsheet) (name : string)
    (save : save_arg) (load_from_saved : bool) (save_dir : option Path)
    (save_time_interval : json) (overwrite : bool) (port_arg : option Z)
    (max_saved_versions free_port : Z)
    (web_server : option FlowsheetServer) (fs : filesystem)
    (log : list io_event) :
  _settings_block
    (self (snd (visualize flowsheet name save load_from_saved save_dir
                  save_time_interval overwrite port_arg max_saved_versions
                  free_port web_server fs log)))
  = match web_server with
    | Some srv => _settings_block srv
    | None => {[ "save_time_interval" := save_time_interval ]}
    end.
Proof.
  unfold visualize.
  set (w0 := match web_server with None => _ | Some srv => _ end).
  assert (_settings_block (self w0)
          = match web_server with
            | Some srv => _settings_block srv
            | None => {[ "save_time_interval" := save_time_interval ]}
            end) as <-.
  { unfold w0. destruct web_server; [done|]. simpl.
    by rewrite insert_empty. }
  clearbody w0.
  unfold bind at 1, lift at 1.
  destruct (save_location name save save_dir) as [[save_path|]|e];
    [| |done].
  - unfold bind at 1.
    assert (∀ (datastore : DataStore) (w : world),
              _settings_block (self (snd
                (bind (try_except (add_flowsheet name flowsheet datastore)
                   (λ err, match err with
                           | ProcessingError _ | DatastoreError _ =>
                               raise (VisualizerError
                                 ("Cannot add flowsheet: " +:+ exn_str err))
                           | _ => raise err
                           end))
                   (λ new_name w,
                      (Ok {| store := default datastore
                                        (_dsm (self w) !! new_name);
                             port := _port (self w) |}, w)) w)))
              = _settings_block (self w)) as Hadd.
    { intros datastore w. unfold bind, try_except.
      pose proof (add_flowsheet_settings name flowsheet datastore w) as Hs.
      destruct (add_flowsheet name flowsheet datastore w) as [[i|e] w'];
        [done|]. by destruct e. }
    destruct (path_exists save_path (disk w0) && load_from_saved).
    + unfold bind at 1, lift at 1.
      destruct (persist.create save_path (disk w0)) as [datastore|e];
        [|done].
      unfold bind at 1, lift at 1.
      destruct (persist.load datastore (disk w0)); [|done].
      unfold ret at 1. apply Hadd.
    + unfold bind at 1, try_except at 1.
      pose proof (handle_existing_save_path_self name save_path
                    max_saved_versions overwrite w0) as Hself.
      destruct (_handle_existing_save_path _ _ _ _ w0) as [[p|e] w1].
      * simpl in Hself. unfold lift at 1.
        destruct (persist.create p (disk w1)) as [datastore|e].
        -- rewrite Hadd. by rewrite Hself.
        -- simpl. by rewrite Hself.
      * simpl in Hself. destruct e; simpl; by rewrite Hself.
  - unfold bind at 1, ret at 1.
    unfold bind, try_except.
    pose proof (add_flowsheet_settings name flowsheet (MemoryDataStore None)
                  w0) as Hs.
    destruct (add_flowsheet name flowsheet (MemoryDataStore None) w0)
      as [[i|e] w']; [done|]. by destruct e.
Qed.

End visualize_effects.

(** X18: [visualize] sets [save_time_interval] only when it creates the
    server.  With a server that is already there the settings block is left
    as it is: the [save_time_interval] of the later call is ignored. *)
Theorem visualize_keeps_settings_of_running_server :
  ∀ (flowsheet : Flowsheet) (name : string) (save : save_arg)
    (load_from_saved : bool) (save_dir : option Path)
    (save_time_interval : json) (overwrite : bool) (port_arg : option Z)
    (max_saved_versions free_port : Z) (srv : FlowsheetServer)
    (fs : filesystem) (log : list io_event),
    _settings_block
      (self (snd (visualize flowsheet name save load_from_saved save_dir
                    save_time_interval overwrite port_arg max_saved_versions
                    free_port (Some srv) fs log)))
    = _settings_block srv.
Proof. intros. by rewrite visualize_settings. Qed.

(** X19: the first [visualize], which creates the server, leaves a settings
    block that holds [save_time_interval] with the value of the call and
    nothing else, whether the call succeeds or raises. *)
Theorem visualize_new_server_settings :
  ∀ (flowsheet : Flowsheet) (name : string) (save : save_arg)
    (load_from_saved : bool) (save_dir : option Path)
    (save_time_interval : json) (overwrite : bool) (port_arg : option Z)
    (max_saved_versions free_port : Z) (fs : filesystem)
    (log : list io_event),
    _settings_block
      (self (snd (visualize flowsheet name save load_from_saved save_dir
                    save_time_interval overwrite port_arg max_saved_versions
                    free_port None fs log)))
    = {[ "save_time_interval" := save_time_interval ]}.
Proof. intros. by rewrite visualize_settings. Qed.

Section visualize_cases.

Context (flowsheet : Flowsheet) (name : string) (save : save_arg)
        (load_from_saved : bool) (save_dir : option Path)
        (save_time_interval : json) (overwrite : bool)
        (port_arg : option Z) (max_saved_versions free_port : Z)
        (web_server : option FlowsheetServer) (fs : filesystem)
        (log : list io_event).

(** The world in which [visualize] sets up the store. *)
Lemma visualize_start :
  ∃ w0,
    disk w0 = fs ∧ io_log w0 = log
    ∧ _flowsheets (self w0)
      = match web_server with Some srv => _flowsheets srv | None => ∅ end
    ∧ ∀ save_path,
        save_location name save save_dir = Ok save_path →
        visualize flowsheet name save load_from_saved save_dir
          save_time_interval overwrite port_arg max_saved_versions free_port
          web_server fs log
        = bind
            (match save_path with
             | None => ret (MemoryDataStore None)
             | Some save_path =>
                 λ w,
                 if path_exists save_path (disk w) && load_from_saved then
                   bind (lift (persist.create save_path (disk w)))
                     (λ datastore,
                        bind (lift (persist.load datastore (disk w)))
                          (λ _, ret datastore)) w
                 else
                   bind
                     (try_except
                        (_handle_existing_save_path name save_path
                           max_saved_versions overwrite)
                        (λ err, match err with
                                | TooManySavedVersions _ =>
                                    raise (RuntimeError
                                      ("In visualize(): " +:+ exn_str err))
                                | _ => raise err
                                end))
                     (λ save_path w',
                        lift (persist.create save_path (disk w')) w') w
             end)
            (λ datastore,
               bind
                 (try_except (add_flowsheet name flowsheet datastore)
                    (λ err, match err with
                            | ProcessingError _ | DatastoreError _ =>
                                raise (VisualizerError
                                  ("Cannot add flowsheet: " +:+ exn_str err))
                            | _ => raise err
                            end))
                 (λ new_name w,
                    (Ok {| store := default datastore
                                      (_dsm (self w) !! new_name);
                           port := _port (self w) |}, w))) w0.
Proof.
  exists (match web_server with
          | None =>
              snd (add_setting "save_time_interval" save_time_interval
                     {| self := new_server (default free_port port_arg);
                        disk := fs; io_log := log |})
          | Some srv => {| self := srv; disk := fs; io_log := log |}
          end).
  repeat split.
  - by destruct web_server.
  - by destruct web_server.
  - by destruct web_server.
  - intros save_path Hloc. unfold visualize.
    unfold bind at 1, lift at 1. by rewrite Hloc.
Qed.

End visualize_cases.

(** X20: with [save=False] the flowsheet gets a store in memory and
    [visualize] touches no file; when it returns, the store it returns
    holds the serialized flowsheet, saved once. *)
Theorem visualize_without_save_touches_no_file :
  ∀ (flowsheet : Flowsheet) (name : string) (load_from_saved : bool)
    (save_dir : option Path) (save_time_interval : json) (overwrite : bool)
    (port_arg : option Z) (max_saved_versions free_port : Z)
    (web_server : option FlowsheetServer) (fs : filesystem)
    (log : list io_event),
    let (r, w') :=
      visualize flowsheet name (SaveBool false) load_from_saved save_dir
        save_time_interval overwrite port_arg max_saved_versions free_port
        web_server fs log in
    disk w' = fs
    ∧ match r with
      | Ok result =>
          ∃ live,
            as_dict flowsheet (canonical_flowsheet_name name) = Ok live
            ∧ store result = MemoryDataStore (Some live)
            ∧ io_log w' = log ++ [StoreSaved live]
      | Raise _ => io_log w' = log
      end.
Proof.
  intros.
  destruct (visualize_start flowsheet name (SaveBool false) load_from_saved
              save_dir save_time_interval overwrite port_arg
              max_saved_versions free_port web_server fs log)
    as (w0 & Hdisk & Hlog & _ & Hvis).
  rewrite (Hvis None eq_refl).
  unfold bind at 1, ret at 1. unfold bind, try_except.
  rewrite add_flowsheet_eq. cbv zeta.
  rewrite registered_update_not_found by done.
  destruct (as_dict flowsheet _) as [live|e] eqn:Hser.
  - simpl. rewrite lookup_insert_eq. simpl. rewrite Hdisk, Hlog. eauto.
  - destruct e; simpl; by rewrite Hdisk, Hlog.
Qed.

(** X21: when the save file and all the numbered paths
    [save_dir / f"{name}-{i}.json"] below the ceiling exist, and neither
    [load_from_saved] nor [overwrite] is asked for, [visualize] raises
    [RuntimeError]; it writes nothing and the flowsheet is not
    registered. *)
Theorem visualize_too_many_versions :
  ∀ (flowsheet : Flowsheet) (name : string) (save : save_arg)
    (save_dir : option Path) (save_time_interval : json)
    (port_arg : option Z) (max_saved_versions free_port : Z)
    (web_server : option FlowsheetServer) (fs : filesystem)
    (log : list io_event) (p : Path),
    save_location name save save_dir = Ok (Some p) →
    path_exists p fs = true →
    (1 ≤ spec.effective_ceiling max_saved_versions)%Z →
    (∀ i, (1 ≤ i < spec.effective_ceiling max_saved_versions)%Z →
          path_exists (versioned (path_parent p) name i) fs = true) →
    ∃ msg w',
      visualize flowsheet name save false save_dir save_time_interval false
        port_arg max_saved_versions free_port web_server fs log
      = (Raise (RuntimeError msg), w')
      ∧ disk w' = fs ∧ io_log w' = log
      ∧ _flowsheets (self w')
        = match web_server with Some srv => _flowsheets srv | None => ∅ end.
Proof.
  intros flowsheet name save save_dir interval port_arg maxv free_port
    web_server fs log p Hloc Hexists Hceiling Hbelow.
  destruct (visualize_start flowsheet name save false save_dir interval false
              port_arg maxv free_port web_server fs log)
    as (w0 & Hdisk & Hlog & Hfl & Hvis).
  rewrite (Hvis (Some p) Hloc).
  rewrite <- Hdisk in Hexists, Hbelow.
  unfold bind at 1. rewrite Hexists. simpl andb. cbv iota.
  unfold bind at 1, try_except at 1.
  rewrite (handle_existing_save_path_exhausted name p maxv w0) by done.
  unfold raise. eauto 10.
Qed.

Lemma visualize_too_many_versions_witness :
  ∃ msg w',
    visualize (examples.flowsheet_of examples.doc_live) "x" SaveNone false
      None (JNum 5000) false None 2 8000 None
      (examples.directory ["x.json"; "x-1.json"]) []
    = (Raise (RuntimeError msg), w')
    ∧ disk w' = examples.directory ["x.json"; "x-1.json"] ∧ io_log w' = []
    ∧ _flowsheets (self w') = ∅.
Proof.
  apply (visualize_too_many_versions
           (examples.flowsheet_of examples.doc_live) "x" SaveNone None
           (JNum 5000) None 2 8000 None
           (examples.directory ["x.json"; "x-1.json"]) [] ["x.json"]).
  - reflexivity.
  - reflexivity.
  - vm_compute. discriminate.
  - intros i Hi. assert (i = 1%Z) as ->.
    { change (spec.effective_ceiling 2) with 2%Z in Hi. lia. }
    reflexivity.
Defined.

(** X22: when the save path does not exist and can be written, [visualize]
    creates the file: whatever [load_from_saved], [overwrite] and the
    ceiling are, a flowsheet that serializes is saved there once, the file
    holds the serialized document, and the store returned is bound to that
    path. *)
Theorem visualize_creates_save_file :
  ∀ (flowsheet : Flowsheet) (name : string) (save : save_arg)
    (load_from_saved : bool) (save_dir : option Path)
    (save_time_interval : json) (overwrite : bool) (port_arg : option Z)
    (max_saved_versions free_port : Z)
    (web_server : option FlowsheetServer) (fs : filesystem)
    (log : list io_event) (p : Path) (live : document),
    save_location name save save_dir = Ok (Some p) →
    path_exists p fs = false →
    p ∉ unwritable fs →
    path_parent p ∉ unwritable fs →
    as_dict flowsheet (canonical_flowsheet_name name) = Ok live →
    ∃ result w',
      visualize flowsheet name save load_from_saved save_dir
        save_time_interval overwrite port_arg max_saved_versions free_port
        web_server fs log
      = (Ok result, w')
      ∧ store result = FileDataStore p
      ∧ files (disk w') !! p = Some (Saved live)
      ∧ io_log w' = log ++ [StoreSaved live].
Proof.
  intros flowsheet name save load_from_saved save_dir interval overwrite
    port_arg maxv free_port web_server fs log p live Hloc Hexists Hp Hparent
    Hser.
  destruct (visualize_start flowsheet name save load_from_saved save_dir
              interval overwrite port_arg maxv free_port web_server fs log)
    as (w0 & Hdisk & Hlog & _ & Hvis).
  rewrite (Hvis (Some p) Hloc).
  unfold bind at 1. rewrite Hdisk, Hexists. simpl andb. cbv iota.
  unfold bind at 1, try_except at 1.
  assert (_handle_existing_save_path name p maxv overwrite w0 = (Ok p, w0))
    as ->.
  { unfold _handle_existing_save_path. rewrite Hdisk, Hexists.
    by destruct overwrite. }
  unfold lift at 1, persist.create. rewrite Hdisk.
  rewrite decide_False by done.
  assert (never_written (FileDataStore p) (disk w0) = true) as Hnever.
  { unfold never_written. rewrite Hdisk.
    unfold path_exists in Hexists.
    destruct (files fs !! p) eqn:Hfile; [|done].
    by rewrite bool_decide_eq_true_2 in Hexists by eauto. }
  unfold bind, try_except. rewrite add_flowsheet_eq. cbv zeta.
  rewrite registered_update_not_found, Hser by done.
  unfold _store_save, persist.save. simpl. rewrite Hdisk.
  rewrite decide_False by done. simpl.
  eexists _, _. split; [reflexivity|]. simpl.
  rewrite !lookup_insert_eq, Hlog. done.
Qed.

Lemma visualize_creates_save_file_witness :
  ∃ result w',
    visualize (examples.flowsheet_of examples.doc_live) "x" SaveNone true
      None (JNum 5000) false None 100 8000 None examples.no_files []
    = (Ok result, w')
    ∧ store result = FileDataStore ["x.json"]
    ∧ files (disk w') !! ["x.json"] = Some (Saved examples.doc_live)
    ∧ io_log w' = [] ++ [StoreSaved examples.doc_live].
Proof.
  apply (visualize_creates_save_file
           (examples.flowsheet_of examples.doc_live) "x" SaveNone true None
           (JNum 5000) false None 100 8000 None examples.no_files []
           ["x.json"] examples.doc_live).
  - reflexivity.
  - reflexivity.
  - apply not_elem_of_empty.
  - apply not_elem_of_empty.
  - reflexivity.
Defined.

(** ** More on [GET] requests *)

Lemma query_get_pair (key value : string) :
  plain key → plain value →
  query_get (_parse_flowsheet_url (query_pair (key, value))) key
  = Some value.
Proof.
  intros [Hkamp Hkeq] [Hvamp Hveq].
  change (query_pair (key, value))
    with (join_query [query_pair (key, value)]).
  rewrite query_get_items.
  - simpl. rewrite add_query_item_pair by done. apply lookup_insert_eq.
  - constructor; [|done]. unfold query_pair. simpl.
    rewrite !count_char_app. simpl. lia.
Qed.

(** X23: when [GET /fs?id=i] is handled without an error page, it answers
    one response, 200, whose body is the document that the store of [i]
    holds after the request. *)
Theorem get_fs_answers_stored_document :
  ∀ (i : string) (w w' : world) (events : list handler_event),
    plain i →
    do_GET "/fs" (query_pair ("id", i)) w = (Handled events, w') →
    ∃ m, events = [Response 200 (JObj m)]
         ∧ fst (_load_flowsheet i w') = Ok m.
Proof.
  intros i w w' events Hi. rewrite do_GET_fs by done. unfold _get_fs.
  pose proof (update_flowsheet_effect i w) as Heffect.
  destruct (update_flowsheet i w) as [[m|e] w''].
  - intros [= <- <-]. exists m. split; [done|]. apply Heffect.
  - by destruct e.
Qed.

Lemma get_fs_answers_stored_document_witness :
  ∃ m,
    fst (do_GET "/fs" (query_pair ("id", "fs"))
           (examples.world_with (examples.flowsheet_of examples.doc_live)
              (Some examples.doc_stored)))
    = Handled [Response 200 (JObj m)]
    ∧ fst (_load_flowsheet "fs"
             (snd (do_GET "/fs" (query_pair ("id", "fs"))
                     (examples.world_with
                        (examples.flowsheet_of examples.doc_live)
                        (Some examples.doc_stored)))))
      = Ok m.
Proof.
  destruct (get_fs_answers_stored_document "fs"
              (examples.world_with (examples.flowsheet_of examples.doc_live)
                 (Some examples.doc_stored))
              (snd (do_GET "/fs" (query_pair ("id", "fs"))
                      (examples.world_with
                         (examples.flowsheet_of examples.doc_live)
                         (Some examples.doc_stored))))
              [Response 200 (JObj examples.doc_merged)])
    as (m & Hevents & Hload).
  - by split.
  - vm_compute. reflexivity.
  - exists m. split; [|exact Hload].
    injection Hevents as <-. vm_compute. reflexivity.
Defined.

(** X24: [GET /setting?setting_key=k] is answered 200 for every key: with
    the value of the setting, or with null when there is no such setting;
    the server is not changed. *)
Theorem get_setting_request_always_ok :
  ∀ (key : string) (w : world),
    plain key →
    do_GET "/setting" (query_pair ("setting_key", key)) w
    = (Handled
         [Response 200
            (JObj {[ "setting_value" :=
                       default JNull (_settings_block (self w) !! key) ]})],
       w).
Proof.
  intros key w Hkey. unfold do_GET. cbv zeta.
  rewrite query_get_pair by (done || by split).
  simpl. unfold _get_setting, get_setting, dict_getitem, hbind, hlift.
  destruct (_settings_block (self w) !! key) as [v|] eqn:Hv; simpl.
  - rewrite bool_decide_eq_false_2; [done|].
    intros Hnot. apply not_elem_of_dom in Hnot. congruence.
  - by rewrite bool_decide_eq_true_2 by by apply not_elem_of_dom.
Qed.

Lemma get_setting_request_always_ok_witness :
  do_GET "/setting" (query_pair ("setting_key", "theme"))
    (examples.world_with (examples.flowsheet_of examples.doc_live) None)
  = (Handled
       [Response 200
          (JObj {[ "setting_value" :=
                     default JNull
                       (_settings_block
                          (self (examples.world_with
                                   (examples.flowsheet_of examples.doc_live)
                                   None)) !! "theme") ]})],
     examples.world_with (examples.flowsheet_of examples.doc_live) None).
Proof.
  apply (get_setting_request_always_ok "theme"). by split.
Defined.

(** ** Overwriting and loading a save file *)

(** With [load_from_saved=True] a save path that exists is loaded: whatever
    [overwrite] is, the call truncates nothing, a file that held a document
    still holds one afterwards, and the call succeeds only if the file held
    a document. *)
Lemma load_from_saved_never_truncates (flowsheet : Flowsheet)
    (name : string) (save : save_arg) (save_dir : option Path)
    (save_time_interval : json) (overwrite : bool) (port_arg : option Z)
    (max_saved_versions free_port : Z)
    (web_server : option FlowsheetServer) (fs : filesystem)
    (log : list io_event) (p : Path) :
  save_location name save save_dir = Ok (Some p) →
  path_exists p fs = true →
  ∃ r w' rest,
    visualize flowsheet name save true save_dir save_time_interval overwrite
      port_arg max_saved_versions free_port web_server fs log = (r, w')
    ∧ io_log w' = log ++ rest
    ∧ (∀ q, Truncated q ∉ rest)
    ∧ (files (disk w') !! p = Some Blank → files fs !! p = Some Blank)
    ∧ (is_Ok r = true → ∃ stored, files fs !! p = Some (Saved stored)).
Proof.
  intros Hloc Hexists.
  destruct (visualize_start flowsheet name save true save_dir
              save_time_interval overwrite port_arg max_saved_versions
              free_port web_server fs log)
    as (w0 & Hdisk & Hlog & _ & Hvis).
  rewrite (Hvis (Some p) Hloc).
  assert (∀ (e : exn) (w : world),
            disk w = fs → io_log w = log →
            ∃ r w' rest,
              (@Raise VisualizeResult e, w) = (r, w')
              ∧ io_log w' = log ++ rest
              ∧ (∀ q, Truncated q ∉ rest)
              ∧ (files (disk w') !! p = Some Blank
                 → files fs !! p = Some Blank)
              ∧ (is_Ok r = true
                 → ∃ stored, files fs !! p = Some (Saved stored)))
    as Hraise.
  { intros e w Hd Hl. exists (Raise e), w, [].
    rewrite Hd, Hl, app_nil_r. repeat split; try done.
    intros q Hq. by apply elem_of_nil in Hq. }
  unfold bind at 1. rewrite Hdisk, Hexists. simpl andb. cbv iota.
  unfold bind at 1, lift at 1, persist.create. rewrite ?Hdisk.
  case_decide; [by apply Hraise|].
  unfold bind at 1, lift at 1. simpl persist.load. rewrite ?Hdisk.
  destruct (files fs !! p) as [[|stored|text]|] eqn:Hfile;
    try (by apply Hraise).
  unfold ret at 1. unfold bind, try_except.
  rewrite add_flowsheet_eq. cbv zeta.
  set (id_ := canonical_flowsheet_name name).
  set (w1 := snd (_register id_ flowsheet (FileDataStore p) w0)).
  assert (disk w1 = fs ∧ io_log w1 = log) as [Hdisk1 Hlog1] by done.
  rewrite update_flowsheet_eq. unfold w1, id_ at 1 2.
  rewrite registered_load. fold id_. fold w1. simpl persist.load.
  rewrite Hdisk, Hfile.
  assert (_flowsheets (self w1) !! id_ = Some flowsheet) as Hobj.
  { unfold w1, _register. simpl. apply lookup_insert_eq. }
  assert (_dsm (self w1) !! id_ = Some (FileDataStore p)) as Hstore.
  { unfold w1, _register, persist.add. simpl. apply lookup_insert_eq. }
  clearbody w1. rewrite Hobj.
  destruct (as_dict flowsheet id_) as [live|e].
  - cbv zeta. destruct (diff_bool _).
    + unfold save_flowsheet, try_except, _dsm_save, dsm_save.
      rewrite Hstore. unfold persist.save. rewrite Hdisk1.
      case_decide; [by apply Hraise|]. simpl.
      eexists _, _, [StoreSaved _]. split; [reflexivity|]. simpl.
      rewrite Hlog1, lookup_insert_eq. repeat split; try done; eauto.
      intros q Hq. apply elem_of_cons in Hq as [Hq|Hq]; [done|].
      by apply elem_of_nil in Hq.
    + eexists _, _, []. split; [reflexivity|]. simpl.
      rewrite Hdisk1, Hlog1, app_nil_r. repeat split; try done; eauto.
      * intros q Hq. by apply elem_of_nil in Hq.
      * by rewrite Hfile.
  - destruct e; by apply Hraise.
Qed.

(** C10, amended: when [visualize] is called with [overwrite=True] and
    [load_from_saved=False] and the save path exists (and can be written),
    the first write of the call is the truncation of that file, before any
    document is saved; if the call then fails, nothing else was written and
    the file is left blank, so the document it held is gone; if the call
    succeeds, the one save that follows puts the serialized flowsheet in the
    file.  With [load_from_saved=True] a save path that exists is loaded and
    not truncated: the call writes no truncation, does not leave blank a
    file that held a document, and succeeds only if the file held one. *)
Theorem overwrite_truncates_before_save :
  ∀ (flowsheet : Flowsheet) (name : string) (save : save_arg)
    (save_dir : option Path) (save_time_interval : json)
    (port_arg : option Z) (max_saved_versions free_port : Z)
    (web_server : option FlowsheetServer) (fs : filesystem)
    (log : list io_event) (p : Path),
    save_location name save save_dir = Ok (Some p) →
    path_exists p fs = true →
    (p ∉ unwritable fs →
     ∃ r w' rest,
       visualize flowsheet name save false save_dir save_time_interval true
         port_arg max_saved_versions free_port web_server fs log = (r, w')
       ∧ io_log w' = log ++ Truncated p :: rest
       ∧ (is_Ok r = false →
          rest = [] ∧ files (disk w') !! p = Some Blank)
       ∧ (is_Ok r = true →
          ∃ d, as_dict flowsheet (canonical_flowsheet_name name) = Ok d
               ∧ rest = [StoreSaved d]
               ∧ files (disk w') !! p = Some (Saved d)))
    ∧ (∃ r w' rest,
         visualize flowsheet name save true save_dir save_time_interval true
           port_arg max_saved_versions free_port web_server fs log = (r, w')
         ∧ io_log w' = log ++ rest
         ∧ (∀ q, Truncated q ∉ rest)
         ∧ (files (disk w') !! p = Some Blank → files fs !! p = Some Blank)
         ∧ (is_Ok r = true → ∃ stored, files fs !! p = Some (Saved stored))).
Proof.
  intros flowsheet name save save_dir interval port_arg maxv free_port
    web_server fs log p Hloc Hexists. split.
  - intros Hwritable. by apply overwrite_without_loading.
  - by apply load_from_saved_never_truncates.
Qed.

Lemma overwrite_truncates_before_save_witness :
  (∃ r w' rest,
     visualize (examples.flowsheet_raising (KeyError "unit_models")) "x"
       SaveNone false None (JNum 5000) true None 100 8000 None
       examples.saved_x [] = (r, w')
     ∧ io_log w' = [] ++ Truncated ["x.json"] :: rest
     ∧ (is_Ok r = false →
        rest = [] ∧ files (disk w') !! ["x.json"] = Some Blank)
     ∧ (is_Ok r = true →
        ∃ d, as_dict (examples.flowsheet_raising (KeyError "unit_models"))
               (canonical_flowsheet_name "x") = Ok d
             ∧ rest = [StoreSaved d]
             ∧ files (disk w') !! ["x.json"] = Some (Saved d)))
  ∧ (∃ r w' rest,
       visualize (examples.flowsheet_raising (KeyError "unit_models")) "x"
         SaveNone true None (JNum 5000) true None 100 8000 None
         examples.saved_x [] = (r, w')
       ∧ io_log w' = [] ++ rest
       ∧ (∀ q, Truncated q ∉ rest)
       ∧ (files (disk w') !! ["x.json"] = Some Blank
          → files examples.saved_x !! ["x.json"] = Some Blank)
       ∧ (is_Ok r = true
          → ∃ stored,
              files examples.saved_x !! ["x.json"] = Some (Saved stored))).
Proof.
  destruct (overwrite_truncates_before_save
              (examples.flowsheet_raising (KeyError "unit_models")) "x"
              SaveNone None (JNum 5000) None 100 8000 None examples.saved_x
              [] ["x.json"]) as [Hfresh Hload].
  - reflexivity.
  - reflexivity.
  - split; [|exact Hload]. apply Hfresh. apply not_elem_of_empty.
Defined.
